(** * Softmax classifier and two-layer network: a shallow embedding

    The two classes of the repository, [Softmax] (hw2, nndl/softmax.py) and
    [TwoLayerNet] (hw3, nndl/neural_net.py), are written against numpy.  The
    embedding has three layers:

    - [Py]: Python exceptions as an error monad;
    - [Np]: the numpy operations the two files call, on arrays of rank at
      most two whose shape is dynamic, with numpy's broadcasting rules and
      the exceptions numpy raises on a shape mismatch;
    - [Softmax] and [TwoLayerNet]: the methods, line by line.

    The float64 entries of arrays are idealised as real numbers: [np.exp]
    is [exp], [np.log] is [ln], and an operation that numpy answers with
    [nan] or [inf] and a RuntimeWarning (a mean of nothing, a division by
    zero) raises nothing here either and has whatever value [R]'s total
    operations give it.  Statements about array entries therefore name the
    expression the code evaluates; they are not statements about its
    rounded value.  The one float that decides control flow, the quotient
    [num_train / batch_size] of [TwoLayerNet.train], is rounded as binary64
    rounds it ([Py.truediv]).  Integer label arrays are lists of naturals.
    Random draws are read from an oracle that every statement quantifies
    over. *)

From Stdlib Require Import String Reals Lra Lia Arith ZArith QArith Qround Bool List.
From Stdlib Require SpecFloat.
Import ListNotations.

(* ================================================================== *)
(** * Python exceptions *)
(* ================================================================== *)

Module Py.

Inductive exn : Type :=
| ValueError
| IndexError
| NameError
| TypeError
| ZeroDivisionError.

Inductive result (A : Type) : Type :=
| Ok (a : A)
| Raise (e : exn).

Arguments Ok {A} a.
Arguments Raise {A} e.

Definition bind {A B : Type} (m : result A) (k : A -> result B) : result B :=
  match m with
  | Ok a => k a
  | Raise e => Raise e
  end.

Definition returns {A : Type} (m : result A) : Prop := exists a, m = Ok a.

Definition raises {A : Type} (m : result A) : Prop := exists e, m = Raise e.

(** [for x in xs: body], threading the loop state and stopping at the first
    exception. *)
Fixpoint for_each {S : Type} (xs : list nat) (body : nat -> S -> result S)
  (s : S) : result S :=
  match xs with
  | [] => Ok s
  | x :: rest => bind (body x s) (for_each rest body)
  end.

(** Python's floats are IEEE binary64 numbers: 53 bits of precision,
    exponents below 1024.  [float_of_nat n] is the float nearest to the
    integer [n], ties to even. *)
Definition float_of_nat (n : nat) : SpecFloat.spec_float :=
  SpecFloat.binary_normalize 53 1024 (Z.of_nat n) 0 false.

(** The rational number a finite float stands for. *)
Definition float_value (x : SpecFloat.spec_float) : option Q :=
  match x with
  | SpecFloat.S754_zero _ => Some 0%Q
  | SpecFloat.S754_finite s m e =>
      Some ((if s then -(1) else 1) * inject_Z (Z.pos m) * 2 ^ e)%Q
  | SpecFloat.S754_infinity _ => None
  | SpecFloat.S754_nan => None
  end.

(** The float [a / b] of two Python ints, [b] not 0: the binary64 number
    nearest to the quotient, ties to even, given as the rational number it
    stands for.  So [6 / 3] is 2, [5 / 2] is 2.5, and [4 / 3] is
    6004799503160661 / 2^52, which is not four thirds.  The last case is
    out of reach of an array: it needs an operand or a quotient of 2^1024
    or more, where CPython raises OverflowError. *)
Definition float_quotient (a b : nat) : Q :=
  match float_value (SpecFloat.SFdiv 53 1024 (float_of_nat a) (float_of_nat b)) with
  | Some q => q
  | None => Z.of_nat a # Pos.of_nat b
  end.

(** [a / b] on two Python ints: true division, ZeroDivisionError on
    [b = 0]. *)
Definition truediv (a b : nat) : result Q :=
  if (b =? 0)%nat then Raise ZeroDivisionError
  else Ok (float_quotient a b).

(** The builtin [max(x, y)] on the values of two finite floats: the second
    argument wins only when it is strictly greater. *)
Definition max (x y : Q) : Q := if Qle_bool y x then x else y.

(** [x % y] on the values of two finite floats, for [y > 0]:
    [x - y * floor(x / y)].  The remainder of two floats is itself a float
    (it is what C's [fmod] returns, corrected to the sign of [y]), so
    nothing is rounded here. *)
Definition mod_ (x y : Q) : Q := (x - y * inject_Z (Qfloor (x / y)))%Q.

(** Name resolution: the names a function body can see, innermost scope
    first.  Values that are not arrays (modules, classes, [self]) are
    opaque objects. *)
Inductive value (A : Type) : Type :=
| VArray (a : A)
| VObject.

Arguments VArray {A} a.
Arguments VObject {A}.

Fixpoint lookup {A : Type} (name : string) (env : list (string * value A))
  : result (value A) :=
  match env with
  | [] => Raise NameError
  | (n, v) :: rest => if String.eqb n name then Ok v else lookup name rest
  end.

End Py.

Export Py.

Declare Scope py_scope.
Delimit Scope py_scope with py.
Notation "x <- m ;; k" := (Py.bind m (fun x => k))
  (at level 61, m at next level, right associativity) : py_scope.
Notation "' pat <- m ;; k" := (Py.bind m (fun x => match x with pat => k end))
  (at level 61, pat pattern, m at next level, right associativity) : py_scope.

Local Open Scope R_scope.
Local Open Scope py_scope.

(* ================================================================== *)
(** * numpy *)
(* ================================================================== *)

Module Np.

(** An array is its shape and its entries.  [Scalar] is a numpy float
    ([np.float64]); [Arr1 n f] has shape [(n,)] and entries [f 0 .. f (n-1)];
    [Arr2 n m f] has shape [(n, m)].  Entries outside the shape are never
    read by the operations below. *)
Inductive ndarray : Type :=
| Scalar (x : R)
| Arr1 (n : nat) (f : nat -> R)
| Arr2 (n m : nat) (f : nat -> nat -> R).

Definition shape (a : ndarray) : list nat :=
  match a with
  | Scalar _ => []
  | Arr1 n _ => [n]
  | Arr2 n m _ => [n; m]
  end.

(** [a.shape[k]]: IndexError when the tuple is too short. *)
Definition shape_at (a : ndarray) (k : nat) : result nat :=
  match nth_error (shape a) k with
  | Some d => Ok d
  | None => Raise IndexError
  end.

(** [n, m = a.shape]: ValueError unless the rank is two. *)
Definition shape2 (a : ndarray) : result (nat * nat) :=
  match a with
  | Arr2 n m _ => Ok (n, m)
  | _ => Raise ValueError
  end.

(** Entrywise equality of two arrays of one shape. *)
Definition array_eq (a b : ndarray) : Prop :=
  match a, b with
  | Scalar x, Scalar y => x = y
  | Arr1 n f, Arr1 n' g => n = n' /\ forall i, (i < n)%nat -> f i = g i
  | Arr2 n m f, Arr2 n' m' g =>
      n = n' /\ m = m' /\
      forall i j, (i < n)%nat -> (j < m)%nat -> f i j = g i j
  | _, _ => False
  end.

(** [f 0 + f 1 + ... + f (n-1)]. *)
Fixpoint rsum (n : nat) (f : nat -> R) : R :=
  match n with
  | O => 0
  | S k => rsum k f + f k
  end.

(** The largest of [f 0 .. f k]. *)
Fixpoint rmax_upto (f : nat -> R) (k : nat) : R :=
  match k with
  | O => f O
  | S k' => Rmax (rmax_upto f k') (f (S k'))
  end.

(** The first index among [0 .. k] where [f] is largest. *)
Fixpoint argmax_upto (f : nat -> R) (k : nat) : nat :=
  match k with
  | O => O
  | S k' =>
      let best := argmax_upto f k' in
      if Rlt_dec (f best) (f (S k')) then S k' else best
  end.

(** A unary ufunc ([np.exp], [np.log], [np.square], a scalar factor). *)
Definition map1 (g : R -> R) (a : ndarray) : ndarray :=
  match a with
  | Scalar x => Scalar (g x)
  | Arr1 n f => Arr1 n (fun i => g (f i))
  | Arr2 n m f => Arr2 n m (fun i j => g (f i j))
  end.

(** Broadcasting of one pair of dimensions. *)
Definition bdim (a b : nat) : result nat :=
  if (a =? b)%nat then Ok a
  else if (a =? 1)%nat then Ok b
  else if (b =? 1)%nat then Ok a
  else Raise ValueError.

(** The index read in a dimension of size [d]: a dimension of size one is
    stretched. *)
Definition bidx (d i : nat) : nat := if (d =? 1)%nat then O else i.

(** A binary ufunc ([+], [-], [/], [*], [np.maximum]) with broadcasting:
    shapes are aligned on their last dimension. *)
Definition map2 (op : R -> R -> R) (a b : ndarray) : result ndarray :=
  match a, b with
  | Scalar x, _ => Ok (map1 (op x) b)
  | _, Scalar y => Ok (map1 (fun v => op v y) a)
  | Arr1 n f, Arr1 n' g =>
      d <- bdim n n' ;;
      Ok (Arr1 d (fun i => op (f (bidx n i)) (g (bidx n' i))))
  | Arr2 n m f, Arr1 m' g =>
      d <- bdim m m' ;;
      Ok (Arr2 n d (fun i j => op (f i (bidx m j)) (g (bidx m' j))))
  | Arr1 m f, Arr2 n' m' g =>
      d <- bdim m m' ;;
      Ok (Arr2 n' d (fun i j => op (f (bidx m j)) (g i (bidx m' j))))
  | Arr2 n m f, Arr2 n' m' g =>
      d0 <- bdim n n' ;;
      d1 <- bdim m m' ;;
      Ok (Arr2 d0 d1 (fun i j => op (f (bidx n i) (bidx m j))
                                    (g (bidx n' i) (bidx m' j))))
  end.

(** An in-place operator ([a -= b]): the broadcast result must have the
    shape of [a]. *)
Definition imap2 (op : R -> R -> R) (a b : ndarray) : result ndarray :=
  r <- map2 op a b ;;
  if list_eq_dec Nat.eq_dec (shape r) (shape a) then Ok r else Raise ValueError.

(** [a.T] *)
Definition T (a : ndarray) : ndarray :=
  match a with
  | Arr2 n m f => Arr2 m n (fun i j => f j i)
  | _ => a
  end.

(** [np.dot(a, b)] *)
Definition dot (a b : ndarray) : result ndarray :=
  match a, b with
  | Scalar x, _ => Ok (map1 (Rmult x) b)
  | _, Scalar y => Ok (map1 (fun v => v * y) a)
  | Arr1 n f, Arr1 n' g =>
      if (n =? n')%nat then Ok (Scalar (rsum n (fun k => f k * g k)))
      else Raise ValueError
  | Arr2 n m f, Arr1 m' g =>
      if (m =? m')%nat then Ok (Arr1 n (fun i => rsum m (fun k => f i k * g k)))
      else Raise ValueError
  | Arr1 n f, Arr2 n' m g =>
      if (n =? n')%nat then Ok (Arr1 m (fun j => rsum n (fun k => f k * g k j)))
      else Raise ValueError
  | Arr2 n m f, Arr2 m' p g =>
      if (m =? m')%nat
      then Ok (Arr2 n p (fun i j => rsum m (fun k => f i k * g k j)))
      else Raise ValueError
  end.

(** [np.matmul(a, b)]: as [np.dot], but scalars are refused. *)
Definition matmul (a b : ndarray) : result ndarray :=
  match a, b with
  | Scalar _, _ => Raise ValueError
  | _, Scalar _ => Raise ValueError
  | _, _ => dot a b
  end.

(** [np.sum(a)] *)
Definition sum (a : ndarray) : R :=
  match a with
  | Scalar x => x
  | Arr1 n f => rsum n f
  | Arr2 n m f => rsum n (fun i => rsum m (f i))
  end.

Definition size (a : ndarray) : nat :=
  match a with
  | Scalar _ => 1
  | Arr1 n _ => n
  | Arr2 n m _ => n * m
  end.

(** [np.mean(a)] *)
Definition mean (a : ndarray) : R := sum a / INR (size a).

(** [np.sum(a, axis=k)]: an axis the array does not have is an AxisError,
    a subclass of ValueError. *)
Definition sum_axis (a : ndarray) (axis : nat) : result ndarray :=
  match a, axis with
  | Scalar x, O => Ok (Scalar x)
  | Arr1 n f, O => Ok (Scalar (rsum n f))
  | Arr2 n m f, O => Ok (Arr1 m (fun j => rsum n (fun i => f i j)))
  | Arr2 n m f, 1%nat => Ok (Arr1 n (fun i => rsum m (f i)))
  | _, _ => Raise ValueError
  end.

(** [np.amax(a, axis=1)]: ValueError on a reduction over no element. *)
Definition amax1 (a : ndarray) : result ndarray :=
  match a with
  | Arr2 n m f =>
      if (m =? 0)%nat then Raise ValueError
      else Ok (Arr1 n (fun i => rmax_upto (f i) (m - 1)))
  | _ => Raise ValueError
  end.

(** [np.argmax(a, axis=1)]: an integer array, one label per row. *)
Definition argmax1 (a : ndarray) : result (list nat) :=
  match a with
  | Arr2 n m f =>
      if (m =? 0)%nat then Raise ValueError
      else Ok (map (fun i => argmax_upto (f i) (m - 1)) (seq 0 n))
  | _ => Raise ValueError
  end.

(** [np.tile(a, (c, 1))] *)
Definition tile_rows (a : ndarray) (c : nat) : ndarray :=
  match a with
  | Scalar x => Arr2 c 1 (fun _ _ => x)
  | Arr1 n f => Arr2 c n (fun _ j => f j)
  | Arr2 n m f => Arr2 (c * n) m (fun i j => f (i mod n)%nat j)
  end.

(** [a.reshape(r, c)] *)
Definition reshape2 (a : ndarray) (r c : nat) : result ndarray :=
  if (size a =? r * c)%nat then
    match a with
    | Scalar x => Ok (Arr2 r c (fun _ _ => x))
    | Arr1 n f => Ok (Arr2 r c (fun i j => f (i * c + j)%nat))
    | Arr2 n m f =>
        Ok (Arr2 r c (fun i j => f ((i * c + j) / m)%nat ((i * c + j) mod m)%nat))
    end
  else Raise ValueError.

(** An integer array as the float operand of an arithmetic operator. *)
Definition asarray (y : list nat) : ndarray :=
  Arr1 (length y) (fun i => INR (nth i y O)).

(** [np.max(y)] on an integer array: ValueError on an empty one. *)
Definition max_label (y : list nat) : result nat :=
  match y with
  | [] => Raise ValueError
  | l :: rest => Ok (fold_left Nat.max rest l)
  end.

(** [np.arange(n)] *)
Definition arange (n : nat) : list nat := seq 0 n.

Definition in_range (bound : nat) (idx : list nat) : bool :=
  forallb (fun k => (k <? bound)%nat) idx.

(** [a[:, y]] with an integer array [y]: the listed columns, in order. *)
Definition take_cols (a : ndarray) (y : list nat) : result ndarray :=
  match a with
  | Arr2 n m f =>
      if in_range m y
      then Ok (Arr2 n (length y) (fun i j => f i (nth j y O)))
      else Raise IndexError
  | _ => Raise IndexError
  end.

(** [a[idx]] with an integer array [idx]: the listed rows, in order. *)
Definition take_rows (a : ndarray) (idx : list nat) : result ndarray :=
  match a with
  | Scalar _ => Raise IndexError
  | Arr1 n f =>
      if in_range n idx
      then Ok (Arr1 (length idx) (fun i => f (nth i idx O)))
      else Raise IndexError
  | Arr2 n m f =>
      if in_range n idx
      then Ok (Arr2 (length idx) m (fun i j => f (nth i idx O) j))
      else Raise IndexError
  end.

(** [y[idx]] on an integer array. *)
Definition take_labels (y : list nat) (idx : list nat) : result (list nat) :=
  if in_range (length y) idx
  then Ok (map (fun k => nth k y O) idx)
  else Raise IndexError.

(** [a[start:stop]] for [0 <= start <= stop]: slices clip, they never
    raise. *)
Definition slice_rows (a : ndarray) (start stop : nat) : result ndarray :=
  match a with
  | Scalar _ => Raise IndexError
  | Arr1 n f =>
      Ok (Arr1 (Nat.min stop n - Nat.min start n)
               (fun i => f (Nat.min start n + i)%nat))
  | Arr2 n m f =>
      Ok (Arr2 (Nat.min stop n - Nat.min start n) m
               (fun i j => f (Nat.min start n + i)%nat j))
  end.

Definition slice_labels (y : list nat) (start stop : nat) : list nat :=
  firstn (stop - start) (skipn start y).

(** The positions [(rows[k], cols[k])] that [a[rows, cols]] addresses: the
    two index arrays are broadcast against each other. *)
Definition index_pairs (rows cols : list nat) : result (list (nat * nat)) :=
  match bdim (length rows) (length cols) with
  | Ok d =>
      Ok (map (fun k => (nth (bidx (length rows) k) rows O,
                         nth (bidx (length cols) k) cols O)) (seq 0 d))
  | Raise _ => Raise IndexError
  end.

Definition pair_in_range (n m : nat) (p : nat * nat) : bool :=
  ((fst p <? n) && (snd p <? m))%nat.

Definition pair_eqb (p q : nat * nat) : bool :=
  ((fst p =? fst q) && (snd p =? snd q))%nat.

(** [a[rows, cols]] *)
Definition getitem_pairs (a : ndarray) (rows cols : list nat) : result ndarray :=
  match a with
  | Arr2 n m f =>
      ps <- index_pairs rows cols ;;
      if forallb (pair_in_range n m) ps
      then Ok (Arr1 (length ps)
                 (fun k => f (fst (nth k ps (O, O))) (snd (nth k ps (O, O)))))
      else Raise IndexError
  | _ => Raise IndexError
  end.

(** [a[rows, cols] -= v]: every addressed entry is decreased once, however
    often it is listed. *)
Definition isub_pairs (a : ndarray) (rows cols : list nat) (v : R)
  : result ndarray :=
  match a with
  | Arr2 n m f =>
      ps <- index_pairs rows cols ;;
      if forallb (pair_in_range n m) ps
      then Ok (Arr2 n m
                 (fun i j => if existsb (pair_eqb (i, j)) ps
                             then f i j - v else f i j))
      else Raise IndexError
  | _ => Raise IndexError
  end.

(** [a[h <= 0] = 0]: a boolean mask of the array's own shape selects
    entries, a mask over the rows selects rows. *)
Definition zero_where_nonpos (a h : ndarray) : result ndarray :=
  match a, h with
  | Scalar _, _ => Raise TypeError
  | Arr1 n f, Scalar x => Ok (Arr1 n (fun i => if Rle_dec x 0 then 0 else f i))
  | Arr2 n m f, Scalar x =>
      Ok (Arr2 n m (fun i j => if Rle_dec x 0 then 0 else f i j))
  | Arr1 n f, Arr1 n' g =>
      if (n =? n')%nat
      then Ok (Arr1 n (fun i => if Rle_dec (g i) 0 then 0 else f i))
      else Raise IndexError
  | Arr2 n m f, Arr1 n' g =>
      if (n =? n')%nat
      then Ok (Arr2 n m (fun i j => if Rle_dec (g i) 0 then 0 else f i j))
      else Raise IndexError
  | Arr2 n m f, Arr2 n' m' g =>
      if ((n =? n') && (m =? m'))%nat
      then Ok (Arr2 n m (fun i j => if Rle_dec (g i j) 0 then 0 else f i j))
      else Raise IndexError
  | Arr1 _ _, Arr2 _ _ _ => Raise IndexError
  end.

(** [a[ix]] for a tuple of integers [ix], read as a number: too many
    indices or an index out of range is an IndexError; with too few the
    value is a sub-array, which the [%f] of the caller refuses. *)
Definition getitem (a : ndarray) (ix : list nat) : result R :=
  match a, ix with
  | Scalar x, [] => Ok x
  | Arr1 n f, [i] => if (i <? n)%nat then Ok (f i) else Raise IndexError
  | Arr2 n m f, [i; j] =>
      if ((i <? n) && (j <? m))%nat then Ok (f i j) else Raise IndexError
  | Arr1 _ _, [] => Raise TypeError
  | Arr2 _ _ _, [] => Raise TypeError
  | Arr2 n _ _, [i] => if (i <? n)%nat then Raise TypeError else Raise IndexError
  | _, _ => Raise IndexError
  end.

(** [a[ix] = v], in place. *)
Definition setitem (a : ndarray) (ix : list nat) (v : R) : result ndarray :=
  match a, ix with
  | Scalar _, _ => Raise TypeError
  | Arr1 n f, [i] =>
      if (i <? n)%nat
      then Ok (Arr1 n (fun k => if (k =? i)%nat then v else f k))
      else Raise IndexError
  | Arr2 n m f, [i; j] =>
      if ((i <? n) && (j <? m))%nat
      then Ok (Arr2 n m (fun k l => if ((k =? i) && (l =? j))%nat then v else f k l))
      else Raise IndexError
  | Arr1 n f, [] => Ok (Arr1 n (fun _ => v))
  | Arr2 n m f, [] => Ok (Arr2 n m (fun _ _ => v))
  | Arr2 n m f, [i] =>
      if (i <? n)%nat
      then Ok (Arr2 n m (fun k l => if (k =? i)%nat then v else f k l))
      else Raise IndexError
  | _, _ => Raise IndexError
  end.

(** [a == b] on two integer arrays, as the 0/1 array [np.mean] averages. *)
Definition eq_labels (a b : list nat) : result ndarray :=
  d <- bdim (length a) (length b) ;;
  Ok (Arr1 d (fun i =>
        if (nth (bidx (length a) i) a O =? nth (bidx (length b) i) b O)%nat
        then 1 else 0)).

(** [np.random.randint(m)]: a draw from [0 .. m-1], ValueError on [m = 0]. *)
Definition randint (raw : nat) (m : nat) : result nat :=
  if (m =? 0)%nat then Raise ValueError else Ok (raw mod m)%nat.

(** [np.random.choice(a, size, replace=True)]: [size] draws from
    [0 .. a-1]; ValueError when there is nothing to draw from. *)
Definition random_choice (raw : nat -> nat) (a size : nat) : result (list nat) :=
  if ((a =? 0) && negb (size =? 0))%nat then Raise ValueError
  else Ok (map (fun k => (raw k mod a)%nat) (seq 0 size)).

End Np.

Import Np.

(* ================================================================== *)
(** * class Softmax (hw2, nndl/softmax.py) *)
(* ================================================================== *)

Module Softmax.

(** The object has one attribute, the weight matrix [self.W]. *)
Record t : Type := { W : ndarray }.

(** [init_weights(dims)] with [dims = [C, D]]:
    [self.W = np.random.normal(size=dims) * 0.0001]. *)
Definition init_weights (normal : nat -> nat -> R) (dims : nat * nat) : t :=
  {| W := map1 (fun v => v * 0.0001) (Arr2 (fst dims) (snd dims) normal) |}.

(** [loss(X, y)] *)
Definition loss (self : t) (X : ndarray) (y : list nat) : result R :=
  pred <- matmul X (T (W self)) ;;
  A_y <- take_cols pred y ;;
  s <- sum_axis (map1 exp pred) 1 ;;
  let log_sum_pred_exp := map1 ln s in
  v <- map2 Rplus (map1 Ropp A_y) log_sum_pred_exp ;;
  Ok (mean v).

(** [loss_and_grad(X, y)] *)
Definition loss_and_grad (self : t) (X : ndarray) (y : list nat)
  : result (R * ndarray) :=
  d <- dot X (T (W self)) ;;
  let numerator := map1 exp d in
  denominator <- sum_axis numerator 1 ;;
  c <- shape_at numerator 1 ;;
  let denominator := T (tile_rows denominator c) in
  score <- map2 Rdiv numerator denominator ;;
  loss_mle <- map2 Rminus (map1 ln denominator) (asarray y) ;;
  let loss := mean loss_mle in
  y_hat <- argmax1 score ;;
  diff <- map2 Rminus (asarray y_hat) (asarray y) ;;
  g <- dot (T X) diff ;;
  let grad := map1 (fun v => v / INR (length y)) g in
  Ok (loss, grad).

(** [fast_loss_and_grad(X, y)] *)
Definition fast_loss_and_grad (self : t) (X : ndarray) (y : list nat)
  : result (R * ndarray) :=
  d <- dot X (T (W self)) ;;
  let numerator := map1 exp d in
  denominator <- sum_axis numerator 1 ;;
  c <- shape_at numerator 1 ;;
  let denominator := T (tile_rows denominator c) in
  score <- map2 Rdiv numerator denominator ;;
  y_hat <- amax1 score ;;
  loss_mle <- map2 Rmult (map1 (fun v => -1 * v) (map1 ln y_hat)) (asarray y) ;;
  let loss := mean loss_mle in
  y_hat <- argmax1 score ;;
  diff <- map2 Rminus (asarray y_hat) (asarray y) ;;
  g <- dot (T X) diff ;;
  let grad := map1 (fun v => v / INR (length y)) g in
  Ok (loss, grad).

(** One line of the report [grad_check_sparse] prints. *)
Record check_line : Type :=
  { numerical : R; analytic : R; relative_error : R }.

(** The body of the loop of [grad_check_sparse]; [raw k] is the raw draw
    behind the [k]-th [np.random.randint] of this round. *)
Definition grad_check_step (X : ndarray) (y : list nat) (your_grad : ndarray)
  (h : R) (raw : nat -> nat) (st : t * list check_line)
  : result (t * list check_line) :=
  let '(self, out) := st in
  ix <- (fix draw (dims : list nat) (k : nat) : result (list nat) :=
           match dims with
           | [] => Ok []
           | m :: rest =>
               i <- randint (raw k) m ;;
               is_ <- draw rest (S k) ;;
               Ok (i :: is_)
           end) (shape (W self)) O ;;
  oldval <- getitem (W self) ix ;;
  w <- setitem (W self) ix (oldval + h) ;;
  let self := {| W := w |} in
  fxph <- loss self X y ;;
  w <- setitem (W self) ix (oldval - h) ;;
  let self := {| W := w |} in
  fxmh <- loss self X y ;;
  w <- setitem (W self) ix oldval ;;
  let self := {| W := w |} in
  let grad_numerical := (fxph - fxmh) / (2 * h) in
  grad_analytic <- getitem your_grad ix ;;
  let rel_error :=
    Rabs (grad_numerical - grad_analytic)
    / (Rabs grad_numerical + Rabs grad_analytic) in
  Ok (self, out ++ [ {| numerical := grad_numerical;
                        analytic := grad_analytic;
                        relative_error := rel_error |} ]).

(** [grad_check_sparse(X, y, your_grad, num_checks, h)]: the object after
    the call and the lines printed. *)
Definition grad_check_sparse (randint_raw : nat -> nat -> nat) (self : t)
  (X : ndarray) (y : list nat) (your_grad : ndarray) (num_checks : nat) (h : R)
  : result (t * list check_line) :=
  for_each (arange num_checks)
    (fun i st => grad_check_step X y your_grad h (randint_raw i) st)
    (self, []).

(** The body of the loop of [train]: the batch is the slice
    [it * batch_size : it * batch_size + batch_size] of the training set. *)
Definition train_step (X : ndarray) (y : list nat) (learning_rate : R)
  (batch_size : nat) (it : nat) (st : t * list R) : result (t * list R) :=
  let '(self, loss_history) := st in
  let start_index := (it * batch_size)%nat in
  let end_index := (start_index + batch_size)%nat in
  X_batch <- slice_rows X start_index end_index ;;
  let y_batch := slice_labels y start_index end_index in
  '(loss, grad) <- fast_loss_and_grad self X_batch y_batch ;;
  let loss_history := loss_history ++ [loss] in
  w <- map2 Rminus (W self) (map1 (Rmult learning_rate) grad) ;;
  Ok ({| W := w |}, loss_history).

(** [train(X, y, learning_rate, num_iters, batch_size)]: the object after
    training and the loss history.  The progress lines of [verbose] are
    left out. *)
Definition train (normal : nat -> nat -> R) (X : ndarray) (y : list nat)
  (learning_rate : R) (num_iters batch_size : nat) : result (t * list R) :=
  '(num_train, dim) <- shape2 X ;;
  m <- max_label y ;;
  let num_classes := (m + 1)%nat in
  m' <- max_label y ;;
  d <- shape_at X 1 ;;
  let self := init_weights normal ((m' + 1)%nat, d) in
  for_each (arange num_iters)
    (train_step X y learning_rate batch_size) (self, []).

(** The names the body of the nested [softmax_function] can see: its
    parameter, the locals of [predict], the module globals. *)
Definition softmax_function_scope (var X y_pred : ndarray)
  : list (string * value ndarray) :=
  [ ("var", VArray var);
    ("self", VObject); ("X", VArray X); ("y_pred", VArray y_pred);
    ("softmax_function", VObject);
    ("A", VObject); ("I", VObject); ("np", VObject); ("Softmax", VObject)
  ]%string.

(** [np.exp(var) / np.sum(np.exp(a))] *)
Definition softmax_function (X y_pred var : ndarray) : result ndarray :=
  let e := map1 exp var in
  a <- lookup "a" (softmax_function_scope var X y_pred) ;;
  match a with
  | VArray a => Ok (map1 (fun v => v / sum (map1 exp a)) e)
  | VObject => Raise TypeError
  end.

(** [predict(X)] *)
Definition predict (self : t) (X : ndarray) : result (list nat) :=
  d <- shape_at X 1 ;;
  let y_pred := Arr1 d (fun _ => 0) in
  s <- dot (W self) X ;;
  p <- softmax_function X y_pred s ;;
  argmax1 p.

End Softmax.

(* ================================================================== *)
(** * class TwoLayerNet (hw3, nndl/neural_net.py) *)
(* ================================================================== *)

Module TwoLayerNet.

(** [self.params]: the dictionary has the four keys ['W1'], ['b1'], ['W2'],
    ['b2'] from the constructor on, and [grads] is built with the same
    four. *)
Record params : Type :=
  { W1 : ndarray; b1 : ndarray; W2 : ndarray; b2 : ndarray }.

(** What [loss] returns: the scores alone, or the loss and the gradients. *)
Inductive loss_result : Type :=
| Scores (scores : ndarray)
| LossGrads (loss : R) (grads : params).

(** [__init__(input_size, hidden_size, output_size, std)]: the weights are
    [std * np.random.randn(...)], the biases [np.zeros(...)]. *)
Definition init (randn1 randn2 : nat -> nat -> R)
  (input_size hidden_size output_size : nat) (std : R) : params :=
  {| W1 := map1 (Rmult std) (Arr2 hidden_size input_size randn1);
     b1 := Arr1 hidden_size (fun _ => 0);
     W2 := map1 (Rmult std) (Arr2 output_size hidden_size randn2);
     b2 := Arr1 output_size (fun _ => 0) |}.

(** [loss(X, y=None, reg=0.0)] *)
Definition loss (self : params) (X : ndarray) (y : option (list nat)) (reg : R)
  : result loss_result :=
  '(N, D) <- shape2 X ;;
  h <- dot X (T (W1 self)) ;;
  H1 <- map2 Rplus h (b1 self) ;;
  H1 <- map2 Rmax (map1 (fun _ => 0) H1) H1 ;;
  s <- dot H1 (T (W2 self)) ;;
  scores <- map2 Rplus s (b2 self) ;;
  match y with
  | None => Ok (Scores scores)
  | Some y =>
      '(num_examples, num_classes) <- shape2 scores ;;
      let e_A := map1 exp scores in
      summed_e_A <- sum_axis e_A 1 ;;
      let logged_summed_e_A := map1 ln summed_e_A in
      A_y <- getitem_pairs scores (arange num_examples) y ;;
      let regularization :=
        0.5 * reg * (sum (map1 Rsqr (W1 self)) + sum (map1 Rsqr (W2 self))) in
      d <- map2 Rminus logged_summed_e_A A_y ;;
      let loss := mean d + regularization in
      r <- reshape2 summed_e_A num_examples 1 ;;
      softmax_gradient <- map2 Rdiv e_A r ;;
      softmax_gradient <- isub_pairs softmax_gradient (arange num_examples) y 1 ;;
      let softmax_gradient :=
        map1 (fun v => v / INR num_examples) softmax_gradient in
      let gradient_reg_W2 := map1 (Rmult reg) (W2 self) in
      let gradient_reg_W1 := map1 (Rmult reg) (W1 self) in
      grads_b2 <- sum_axis (T softmax_gradient) 1 ;;
      g1 <- dot (T H1) softmax_gradient ;;
      let gradient_1 := T g1 in
      grads_W2 <- map2 Rplus gradient_reg_W2 gradient_1 ;;
      gradient_2 <- dot softmax_gradient (W2 self) ;;
      gradient_2 <- zero_where_nonpos gradient_2 H1 ;;
      grads_b1 <- sum_axis gradient_2 0 ;;
      g2 <- dot (T X) gradient_2 ;;
      grads_W1 <- map2 Rplus gradient_reg_W1 (T g2) ;;
      Ok (LossGrads loss
            {| W1 := grads_W1; b1 := grads_b1; W2 := grads_W2; b2 := grads_b2 |})
  end.

(** [predict(X)] *)
Definition predict (self : params) (X : ndarray) : result (list nat) :=
  h <- dot X (T (W1 self)) ;;
  H1 <- map2 Rplus h (b1 self) ;;
  H1 <- map2 Rmax (map1 (fun _ => 0) H1) H1 ;;
  s <- dot H1 (T (W2 self)) ;;
  scores <- map2 Rplus s (b2 self) ;;
  argmax1 scores.

(** The dictionary [train] returns. *)
Record histories : Type :=
  { loss_history : list R;
    train_acc_history : list R;
    val_acc_history : list R }.

(** The loop state of [train]: the parameters, the learning rate, the three
    histories. *)
Record train_state : Type :=
  { self_params : params; learning_rate : R; history : histories }.

(** [it % iterations_per_epoch == 0], on the value of the float
    [iterations_per_epoch]; the counter [it] is an integer below 2^53,
    which the remainder takes as it is. *)
Definition epoch_boundary (it : nat) (iterations_per_epoch : Q) : bool :=
  Qeq_bool (Py.mod_ (inject_Z (Z.of_nat it)) iterations_per_epoch) 0.

(** The body of the loop of [train]; [raw k] is the raw draw behind the
    [k]-th index of this round's [np.random.choice]. *)
Definition train_step (X : ndarray) (y : list nat) (X_val : ndarray)
  (y_val : list nat) (learning_rate_decay reg : R) (num_train batch_size : nat)
  (iterations_per_epoch : Q) (raw : nat -> nat -> nat) (it : nat)
  (st : train_state) : result train_state :=
  let self := self_params st in
  let lr := learning_rate st in
  let hist := history st in
  idxs <- random_choice (raw it) num_train batch_size ;;
  X_batch <- take_rows X idxs ;;
  y_batch <- take_labels y idxs ;;
  r <- loss self X_batch (Some y_batch) reg ;;
  match r with
  | Scores _ => Raise ValueError
  | LossGrads loss grads =>
      let loss_history := loss_history hist ++ [loss] in
      w1 <- imap2 Rminus (W1 self) (map1 (Rmult lr) (W1 grads)) ;;
      v1 <- imap2 Rminus (b1 self) (map1 (Rmult lr) (b1 grads)) ;;
      w2 <- imap2 Rminus (W2 self) (map1 (Rmult lr) (W2 grads)) ;;
      v2 <- imap2 Rminus (b2 self) (map1 (Rmult lr) (b2 grads)) ;;
      let self := {| W1 := w1; b1 := v1; W2 := w2; b2 := v2 |} in
      if epoch_boundary it iterations_per_epoch then
        p <- predict self X_batch ;;
        hit <- eq_labels p y_batch ;;
        let train_acc := mean hit in
        p <- predict self X_val ;;
        hit <- eq_labels p y_val ;;
        let val_acc := mean hit in
        Ok {| self_params := self;
              learning_rate := lr * learning_rate_decay;
              history :=
                {| loss_history := loss_history;
                   train_acc_history := train_acc_history hist ++ [train_acc];
                   val_acc_history := val_acc_history hist ++ [val_acc] |} |}
      else
        Ok {| self_params := self;
              learning_rate := lr;
              history :=
                {| loss_history := loss_history;
                   train_acc_history := train_acc_history hist;
                   val_acc_history := val_acc_history hist |} |}
  end.

(** [train(X, y, X_val, y_val, learning_rate, learning_rate_decay, reg,
    num_iters, batch_size)]: the parameters after training and the
    dictionary of histories.  The progress lines of [verbose] are left
    out. *)
Definition train (raw : nat -> nat -> nat) (self : params) (X : ndarray)
  (y : list nat) (X_val : ndarray) (y_val : list nat)
  (learning_rate0 learning_rate_decay reg : R) (num_iters batch_size : nat)
  : result (params * histories) :=
  num_train <- shape_at X 0 ;;
  q <- Py.truediv num_train batch_size ;;
  let iterations_per_epoch := Py.max q 1 in
  st <- for_each (arange num_iters)
          (train_step X y X_val y_val learning_rate_decay reg num_train
             batch_size iterations_per_epoch raw)
          {| self_params := self;
             learning_rate := learning_rate0;
             history := {| loss_history := [];
                           train_acc_history := [];
                           val_acc_history := [] |} |} ;;
  Ok (self_params st, history st).

End TwoLayerNet.

(* ================================================================== *)
(** * What the specification says *)
(* ================================================================== *)

Module Spec.

(** The score of class [c] on row [i]: [s_i = W · x_i]. *)
Definition score (D : nat) (w x : nat -> nat -> R) (i c : nat) : R :=
  rsum D (fun d => w c d * x i d).

(** The softmax loss: the mean over the batch of
    [-s_{i,y_i} + log(sum_c exp(s_{i,c}))]. *)
Definition softmax_loss (N D C : nat) (w x : nat -> nat -> R) (y : list nat) : R :=
  rsum N (fun i => - score D w x i (nth i y O)
                   + ln (rsum C (fun c => exp (score D w x i c))))
  / INR N.

(** The hidden pre-activation [H = X·W1ᵗ + b1]. *)
Definition hidden (D : nat) (x w1 : nat -> nat -> R) (b1 : nat -> R) (i h : nat) : R :=
  rsum D (fun d => x i d * w1 h d) + b1 h.

(** The output scores [S = A·W2ᵗ + b2] with [A = max(0, H)]. *)
Definition net_scores (D H : nat) (x w1 : nat -> nat -> R) (b1 : nat -> R)
  (w2 : nat -> nat -> R) (b2 : nat -> R) (i c : nat) : R :=
  rsum H (fun h => Rmax 0 (hidden D x w1 b1 i h) * w2 c h) + b2 c.

(** [iterations_per_epoch = max(num_train / batch_size, 1)], the exact
    quotient. *)
Definition iterations_per_epoch (num_train batch_size : nat) : Q :=
  Py.max (Z.of_nat num_train # Pos.of_nat batch_size) 1.

(** The number of completed epochs, [⌈num_iters / iterations_per_epoch⌉]. *)
Definition epochs (num_iters num_train batch_size : nat) : Z :=
  Qceiling (inject_Z (Z.of_nat num_iters)
            / iterations_per_epoch num_train batch_size).

End Spec.

(* ================================================================== *)
(** * TwoLayerNet on parameters of the documented shapes *)
(* ================================================================== *)

(** The parameters: [W1] (H×D), [b1] (H), [W2] (C×H), [b2] (C). *)
Definition net (D H C : nat) (w1 : nat -> nat -> R) (v1 : nat -> R)
  (w2 : nat -> nat -> R) (v2 : nat -> R) : TwoLayerNet.params :=
  {| TwoLayerNet.W1 := Arr2 H D w1; TwoLayerNet.b1 := Arr1 H v1;
     TwoLayerNet.W2 := Arr2 C H w2; TwoLayerNet.b2 := Arr1 C v2 |}.

(** The entries the forward pass computes on an input of shape (N, D):
    [np.dot], the broadcast [+ b1], [np.maximum], [np.dot], the broadcast
    [+ b2]. *)
Definition forward_entry (N D H C : nat) (x w1 : nat -> nat -> R)
  (v1 : nat -> R) (w2 : nat -> nat -> R) (v2 : nat -> R) (i j : nat) : R :=
  rsum H (fun k =>
    Rmax 0 (rsum D (fun d => x (bidx N i) d * w1 (bidx H (bidx H k)) d)
            + v1 (bidx H (bidx H k)))
    * w2 (bidx C j) k)
  + v2 (bidx C j).

(** The cross-entropy of the labels [y] under the scores [S] of shape
    (N, C): the mean over the rows of [log(sum_c exp(S[i,c])) - S[i,y_i]]. *)
Definition cross_entropy (N C : nat) (S : nat -> nat -> R) (y : list nat) : R :=
  rsum N (fun i => ln (rsum C (fun c => exp (S i c))) - S i (nth i y O))
  / INR N.

(** [np.sum(np.square(W))] for [W] of shape (n, m). *)
Definition sum_squares (n m : nat) (w : nat -> nat -> R) : R :=
  rsum n (fun i => rsum m (fun j => Rsqr (w i j))).

(** A parameter set of the documented shapes for [D] features, [H] hidden
    units and [C] classes. *)
Definition has_shapes (D H C : nat) (p : TwoLayerNet.params) : Prop :=
  exists w1 v1 w2 v2, p = net D H C w1 v1 w2 v2.

(** The iterations of a run of [num_iters] at which [TwoLayerNet.train]
    records the accuracies. *)
Definition epoch_boundaries (num_iters : nat) (iterations_per_epoch : Q)
  : list nat :=
  filter (fun it => TwoLayerNet.epoch_boundary it iterations_per_epoch)
         (arange num_iters).

(* ================================================================== *)
(** * Inputs the statements below are evaluated at *)
(* ================================================================== *)

Module C1.

(** Two rows, one feature, two classes: [X = [[1],[0]]], [y = [0, 1]],
    [W = [[1],[0]]]. *)
Definition col10 (i j : nat) : R := match i with O => 1 | _ => 0 end.
Definition X0 : ndarray := Arr2 2 1 col10.
Definition y0 : list nat := [O; 1%nat].
Definition self0 : Softmax.t := {| Softmax.W := Arr2 2 1 col10 |}.

End C1.

Module C2.

(** One row, one feature, two classes: [X = [[1]]], [y = [0]],
    [W = [[0],[0]]]. *)
Definition X0 : ndarray := Arr2 1 1 (fun _ _ => 1).
Definition y0 : list nat := [O].
Definition self0 : Softmax.t := {| Softmax.W := Arr2 2 1 (fun _ _ => 0) |}.

End C2.

Module C3.

(** One row, one feature, two classes: [X = [[1]]], [y = [0]],
    [W = [[0],[0]]]. *)
Definition X0 : ndarray := Arr2 1 1 (fun _ _ => 1).
Definition y0 : list nat := [O].
Definition self0 : Softmax.t := {| Softmax.W := Arr2 2 1 (fun _ _ => 0) |}.

End C3.

Module C7.

(** One row, one feature, one class: [X = [[0]]], [W = [[0]]]. *)
Definition X0 : ndarray := Arr2 1 1 (fun _ _ => 0).
Definition self0 : Softmax.t := {| Softmax.W := Arr2 1 1 (fun _ _ => 0) |}.

End C7.

Module C8.

(** One training row of one feature, of class 0. *)
Definition X0 : ndarray := Arr2 1 1 (fun _ _ => 1).
Definition y0 : list nat := [O].

End C8.

Module C9.

(** Two classes, one feature, one row: [W = [[1],[2]]], [X = [[1]]],
    [y = [0]], a gradient of the shape of [W], two checks with step 1. *)
Definition self0 : Softmax.t :=
  {| Softmax.W := Arr2 2 1 (fun i _ => INR (i + 1)) |}.
Definition X0 : ndarray := Arr2 1 1 (fun _ _ => 1).
Definition y0 : list nat := [O].
Definition grad0 : ndarray := Arr2 2 1 (fun _ _ => 0).
Definition raw0 (i k : nat) : nat := (i + k)%nat.

End C9.

Module Toy.

(** Five training rows of one feature, all of class 0; one hidden unit, one
    class, all-zero parameters; one validation row; every random draw is
    zero. *)
Definition X0 : ndarray := Arr2 5 1 (fun _ _ => 0).
Definition y0 : list nat := [O; O; O; O; O].
Definition X_val0 : ndarray := Arr2 1 1 (fun _ _ => 0).
Definition y_val0 : list nat := [O].
Definition self0 : TwoLayerNet.params :=
  net 1 1 1 (fun _ _ => 0) (fun _ => 0) (fun _ _ => 0) (fun _ => 0).
Definition raw0 (it k : nat) : nat := O.
Definition normal0 (i j : nat) : R := 0.

(** Four training rows of one feature, all of class 0. *)
Definition X4 : ndarray := Arr2 4 1 (fun _ _ => 0).
Definition y4 : list nat := [O; O; O; O].

End Toy.

(* ================================================================== *)
(** * Quantities the further statements are written with *)
(* ================================================================== *)

(** The softmax probabilities of the scores [s] of shape (N, C):
    [exp(s[i,c]) / sum_k exp(s[i,k])]. *)
Definition softmax_prob (C : nat) (s : nat -> nat -> R) (i c : nat) : R :=
  exp (s i c) / rsum C (fun k => exp (s i k)).

(** The scores [X·Wᵗ] of the softmax classifier. *)
Definition linear_scores (D : nat) (x w : nat -> nat -> R) (i c : nat) : R :=
  rsum D (fun k => x i k * w c k).

(** The hidden activations [A = max(0, X·W1ᵗ + b1)] of the two-layer net. *)
Definition activation (D : nat) (x w1 : nat -> nat -> R) (v1 : nat -> R)
  (i h : nat) : R :=
  Rmax 0 (Spec.hidden D x w1 v1 i h).

(** The gradient of the mean cross-entropy in the scores:
    [dS = (P - Y_onehot) / N]. *)
Definition dscores (N C : nat) (s : nat -> nat -> R) (y : list nat)
  (i c : nat) : R :=
  (softmax_prob C s i c - (if (c =? nth i y O)%nat then 1 else 0)) / INR N.

(** The gradient in the hidden activations, cut by the ReLU:
    [dS·W2], zero wherever the activation is not positive. *)
Definition dhidden (C : nat) (a ds w2 : nat -> nat -> R) (i h : nat) : R :=
  if Rle_dec (a i h) 0 then 0 else rsum C (fun c => ds i c * w2 c h).

(** A number that is a fraction of a count. *)
Definition is_fraction (r : R) : Prop := 0 <= r <= 1.

Module X.

(** Two rows of two features, three classes. *)
Definition x2 (i j : nat) : R := INR (i + 2 * j).
Definition w3 (c d : nat) : R := INR (c * d) - 1.
Definition X2 : ndarray := Arr2 2 2 x2.
Definition y2 : list nat := [2%nat; O].
Definition softmax3 : Softmax.t := {| Softmax.W := Arr2 3 2 w3 |}.

(** Three rows of two features, three classes. *)
Definition X3 : ndarray := Arr2 3 2 x2.
Definition y3 : list nat := [2%nat; O; 1%nat].

(** Raw random draws. *)
Definition raw0 (i k : nat) : nat := (2 * i + k)%nat.

End X.

(** The value [Softmax.loss] has on a batch of shape (N, D) with weights
    [w] of shape (C, D): the mean over all pairs of a row and a label
    position. *)
Definition loss_value (N D C : nat) (x w : nat -> nat -> R) (y : list nat) : R :=
  rsum N (fun i => rsum N (fun j =>
    - Spec.score D w x i (nth j y O)
    + ln (rsum C (fun c => exp (Spec.score D w x j c)))))
  / INR (N * N).

(** The weights [w] with [delta] added to entry [(i, j)]. *)
Definition perturbed (w : nat -> nat -> R) (i j : nat) (delta : R)
  : nat -> nat -> R :=
  fun k l => if ((k =? i) && (l =? j))%nat then w i j + delta else w k l.

(** The central finite difference of the loss in entry [(i, j)] of the
    weights. *)
Definition central_difference (N D C : nat) (x w : nat -> nat -> R)
  (y : list nat) (i j : nat) (h : R) : R :=
  (loss_value N D C x (perturbed w i j h) y
   - loss_value N D C x (perturbed w i j (- h)) y) / (2 * h).

(** A line of the report of [grad_check_sparse], for the weights [w] and
    the gradient [g]: the sampled entry lies in the matrix, the numerical
    value is the central difference there, the analytic value is the
    gradient's entry, and, unless both are zero, the relative error is
    [|numerical - analytic| / (|numerical| + |analytic|)]. *)
Definition line_checks_entry (N D C : nat) (x w g : nat -> nat -> R)
  (y : list nat) (h : R) (line : Softmax.check_line) : Prop :=
  exists i j,
    (i < C)%nat /\ (j < D)%nat /\
    Softmax.numerical line = central_difference N D C x w y i j h /\
    Softmax.analytic line = g i j /\
    (Rabs (Softmax.numerical line) + Rabs (Softmax.analytic line) <> 0 ->
     Softmax.relative_error line
     = Rabs (Softmax.numerical line - Softmax.analytic line)
       / (Rabs (Softmax.numerical line) + Rabs (Softmax.analytic line))).

(** The two gradients of the backward pass of [TwoLayerNet.loss] in the
    scores and in the hidden activations. *)
Definition net_dscores (N D H C : nat) (x w1 : nat -> nat -> R) (v1 : nat -> R)
  (w2 : nat -> nat -> R) (v2 : nat -> R) (y : list nat) : nat -> nat -> R :=
  dscores N C (Spec.net_scores D H x w1 v1 w2 v2) y.

Definition net_dhidden (N D H C : nat) (x w1 : nat -> nat -> R) (v1 : nat -> R)
  (w2 : nat -> nat -> R) (v2 : nat -> R) (y : list nat) : nat -> nat -> R :=
  dhidden C (activation D x w1 v1) (net_dscores N D H C x w1 v1 w2 v2 y) w2.

(* ================================================================== *)
(** * Basic facts: the monad, sums, broadcasting *)
(* ================================================================== *)

Lemma bind_ok {A B : Type} (a : A) (k : A -> result B) :
  Py.bind (Ok a) k = k a.
Proof. reflexivity. Qed.

Lemma bind_returns {A B : Type} (m : result A) (k : A -> result B) (b : B) :
  Py.bind m k = Ok b -> exists a, m = Ok a /\ k a = Ok b.
Proof.
  destruct m as [a|e]; simpl; intro E.
  - exists a. split; [reflexivity | exact E].
  - discriminate E.
Qed.

Lemma bdim_same (n : nat) : bdim n n = Ok n.
Proof. unfold bdim. now rewrite Nat.eqb_refl. Qed.

Lemma bidx_lt (d i : nat) : (i < d)%nat -> bidx d i = i.
Proof.
  unfold bidx. intro Hi.
  destruct (Nat.eqb_spec d 1) as [E|E]; [lia | reflexivity].
Qed.

Lemma rsum_ext (n : nat) (f g : nat -> R) :
  (forall i, (i < n)%nat -> f i = g i) -> rsum n f = rsum n g.
Proof.
  induction n as [|n IH]; intro E; simpl.
  - reflexivity.
  - rewrite IH by (intros i Hi; apply E; lia).
    rewrite (E n) by lia. reflexivity.
Qed.

Lemma rsum_const (n : nat) (c : R) : rsum n (fun _ => c) = INR n * c.
Proof.
  induction n as [|n IH].
  - simpl. lra.
  - cbn [rsum]. rewrite IH, S_INR. lra.
Qed.

Lemma rsum_zero (n : nat) (f : nat -> R) :
  (forall i, (i < n)%nat -> f i = 0) -> rsum n f = 0.
Proof.
  intro E. rewrite (rsum_ext n f (fun _ => 0) E), rsum_const. lra.
Qed.

(* ================================================================== *)
(** * Softmax.loss *)
(* ================================================================== *)


(** C1, at the input [X = [[1],[0]]], [y = [0, 1]], [W = [[1],[0]]]:
    [Softmax.loss] returns a value that is larger by 1/4 than the mean over
    the batch of [-s_{i,y_i} + log(sum_c exp(s_{i,c}))].  [pred[:, y]] is
    the N×N matrix of the entries [pred[i, y_j]], not the vector of the
    correct-class scores [pred[i, y_i]], so the mean runs over N² entries. *)
Theorem C1_loss_differs_from_mean_cross_entropy :
  exists v,
    Softmax.loss C1.self0 C1.X0 C1.y0 = Ok v /\
    v = Spec.softmax_loss 2 1 2 C1.col10 C1.col10 C1.y0 + 1 / 4.
Proof.
  eexists. split.
  - unfold Softmax.loss, C1.self0, C1.X0, C1.y0. cbn. reflexivity.
  - unfold Spec.softmax_loss, Spec.score, C1.y0, C1.col10, mean.
    cbn [Np.sum Np.size rsum nth INR Nat.mul Nat.add].
    rewrite ?Rmult_0_l, ?Rmult_0_r, ?Rmult_1_l, ?Rplus_0_l.
    lra.
Qed.

(* ================================================================== *)
(** * Softmax.loss_and_grad and Softmax.fast_loss_and_grad *)
(* ================================================================== *)


(** C2, at the input [X = [[1]]], [y = [0]], [W = [[0],[0]]]:
    [Softmax.loss_and_grad] returns a gradient of shape [(1,)], one entry
    per feature, where [W] has shape [(2, 1)].  The gradient is
    [Xᵗ·(argmax(P) - y) / N], a vector. *)
Theorem C2_gradient_is_a_vector_not_the_shape_of_W :
  exists l g,
    Softmax.loss_and_grad C2.self0 C2.X0 C2.y0 = Ok (l, g) /\
    shape g = [1%nat] /\
    shape (Softmax.W C2.self0) = [2%nat; 1%nat].
Proof.
  do 2 eexists. split; [|split].
  - unfold Softmax.loss_and_grad, C2.self0, C2.X0, C2.y0. cbn. reflexivity.
  - reflexivity.
  - reflexivity.
Qed.


(** C3, at the input [X = [[1]]], [y = [0]], [W = [[0],[0]]]: both methods
    return, [Softmax.loss_and_grad] with the loss [ln 2] (the mean of
    [log(denominator) - y]) and [Softmax.fast_loss_and_grad] with the loss
    [0] (the mean of [-log(max P) * y]); the two losses differ. *)
Theorem C3_fast_loss_differs_from_loss_and_grad :
  exists l g l' g',
    Softmax.loss_and_grad C3.self0 C3.X0 C3.y0 = Ok (l, g) /\
    Softmax.fast_loss_and_grad C3.self0 C3.X0 C3.y0 = Ok (l', g') /\
    l = ln 2 /\ l' = 0 /\ l <> l'.
Proof.
  assert (Hfast : exists l' g',
    Softmax.fast_loss_and_grad C3.self0 C3.X0 C3.y0 = Ok (l', g') /\ l' = 0).
  { do 2 eexists. split.
    - unfold Softmax.fast_loss_and_grad, C3.self0, C3.X0, C3.y0. cbn. reflexivity.
    - unfold mean. cbn [Np.sum Np.size rsum INR bidx Nat.eqb nth]. lra. }
  assert (Hslow : exists l g,
    Softmax.loss_and_grad C3.self0 C3.X0 C3.y0 = Ok (l, g) /\ l = ln 2).
  { do 2 eexists. split.
    - unfold Softmax.loss_and_grad, C3.self0, C3.X0, C3.y0. cbn. reflexivity.
    - unfold mean. cbn [Np.sum Np.size rsum INR bidx Nat.eqb nth Nat.mul Nat.add].
      rewrite ?Rmult_0_l, ?Rmult_0_r, ?Rplus_0_l, exp_0.
      replace (1 + 1) with 2 by lra. lra. }
  destruct Hfast as (l' & g' & E' & Hl').
  destruct Hslow as (l & g & E & Hl).
  exists l, g, l', g'. repeat split; try assumption.
  rewrite Hl, Hl'. pose proof ln_lt_2. lra.
Qed.

(* ================================================================== *)
(** * TwoLayerNet: the forward pass *)
(* ================================================================== *)

Lemma bdim_one_r (n : nat) : bdim n 1 = Ok n.
Proof.
  unfold bdim. destruct (Nat.eqb_spec n 1) as [E|E]; [now subst | reflexivity].
Qed.

(** Evaluation of a chain of numpy calls on arrays whose dimensions agree. *)
Ltac np_eval :=
  repeat (progress (rewrite ?Nat.eqb_refl, ?bdim_same;
                    cbn -[Nat.eqb bdim INR Nat.div Nat.modulo])).

(** The same, one call at a time: the entries of each intermediate array
    are given a name before the array is passed on. *)
Ltac np_name_head :=
  lazymatch goal with
  | |- context [Py.bind (Ok (Arr2 _ _ ?F)) _] =>
      tryif is_var F then idtac
      else (let h := fresh "a" in let E := fresh "E" h in remember F as h eqn:E)
  | |- context [Py.bind (Ok (Arr1 _ ?F)) _] =>
      tryif is_var F then idtac
      else (let h := fresh "a" in let E := fresh "E" h in remember F as h eqn:E)
  | |- _ => idtac
  end.

Ltac np_step :=
  rewrite ?Nat.eqb_refl, ?bdim_same, ?bdim_one_r, ?Nat.mul_1_r, ?andb_true_l;
  cbn -[Py.bind Nat.eqb bdim INR Nat.div Nat.modulo Nat.mul
        getitem_pairs isub_pairs reshape2 arange];
  np_name_head;
  cbn [Py.bind].

Lemma in_range_Forall (bound : nat) (idx : list nat) :
  in_range bound idx = true <-> Forall (fun k => (k < bound)%nat) idx.
Proof.
  unfold in_range. rewrite forallb_forall, Forall_forall.
  split; intros E k Hk; specialize (E k Hk).
  - now apply Nat.ltb_lt.
  - now apply Nat.ltb_lt.
Qed.

Lemma nth_map_seq {A : Type} (f : nat -> A) (n k : nat) (d : A) :
  (k < n)%nat -> nth k (map f (seq 0 n)) d = f k.
Proof.
  intro Hk.
  rewrite (nth_indep _ d (f O)) by (rewrite length_map, length_seq; exact Hk).
  rewrite (map_nth f (seq 0 n) O k), seq_nth by exact Hk. reflexivity.
Qed.

Lemma index_pairs_arange (N : nat) (y : list nat) :
  length y = N ->
  index_pairs (arange N) y = Ok (map (fun k => (k, nth k y O)) (seq 0 N)).
Proof.
  intro Hy. unfold index_pairs, arange.
  rewrite length_seq, Hy, bdim_same. f_equal.
  apply map_ext_in. intros k Hk. apply in_seq in Hk.
  rewrite !bidx_lt, seq_nth by lia. reflexivity.
Qed.

Lemma pairs_in_range (N C : nat) (y : list nat) :
  length y = N -> Forall (fun l => (l < C)%nat) y ->
  forallb (pair_in_range N C) (map (fun k => (k, nth k y O)) (seq 0 N)) = true.
Proof.
  intros Hy Hl. apply forallb_forall. intros p Hp.
  apply in_map_iff in Hp. destruct Hp as (k & <- & Hk).
  apply in_seq in Hk. unfold pair_in_range. cbn [fst snd].
  apply andb_true_iff. split; apply Nat.ltb_lt; [lia|].
  rewrite Forall_forall in Hl. apply Hl, nth_In. lia.
Qed.

(** [a[np.arange(N), y]] on an N×C array picks entry [y_k] of row [k]. *)
Lemma getitem_pairs_arange (N C : nat) (f : nat -> nat -> R) (y : list nat) :
  length y = N -> Forall (fun l => (l < C)%nat) y ->
  exists g,
    getitem_pairs (Arr2 N C f) (arange N) y = Ok (Arr1 N g) /\
    forall k, (k < N)%nat -> g k = f k (nth k y O).
Proof.
  intros Hy Hl. unfold getitem_pairs.
  rewrite (index_pairs_arange N y Hy). cbn [Py.bind].
  rewrite (pairs_in_range N C y Hy Hl).
  rewrite length_map, length_seq.
  eexists. split; [reflexivity|].
  intros k Hk. cbn beta.
  rewrite (nth_map_seq (fun k => (k, nth k y O)) N k (O, O) Hk).
  reflexivity.
Qed.

(** [a[np.arange(N), y] -= v] keeps the shape. *)
Lemma isub_pairs_arange (N C : nat) (f : nat -> nat -> R) (y : list nat) (v : R) :
  length y = N -> Forall (fun l => (l < C)%nat) y ->
  exists g, isub_pairs (Arr2 N C f) (arange N) y v = Ok (Arr2 N C g).
Proof.
  intros Hy Hl. unfold isub_pairs.
  rewrite (index_pairs_arange N y Hy). cbn [Py.bind].
  rewrite (pairs_in_range N C y Hy Hl).
  eexists. reflexivity.
Qed.

Lemma loss_scores (N D H C : nat) x w1 v1 w2 v2 (reg : R) :
  TwoLayerNet.loss (net D H C w1 v1 w2 v2) (Arr2 N D x) None reg
  = Ok (TwoLayerNet.Scores (Arr2 N C (forward_entry N D H C x w1 v1 w2 v2))).
Proof.
  unfold TwoLayerNet.loss, net. np_eval. reflexivity.
Qed.

Lemma predict_labels (N D H C : nat) x w1 v1 w2 v2 :
  C <> O ->
  TwoLayerNet.predict (net D H C w1 v1 w2 v2) (Arr2 N D x)
  = Ok (map (fun i => argmax_upto (forward_entry N D H C x w1 v1 w2 v2 i) (C - 1))
          (seq 0 N)).
Proof.
  intro HC. unfold TwoLayerNet.predict, net. np_eval.
  destruct (Nat.eqb_spec C 0) as [E|E]; [contradiction | reflexivity].
Qed.

Lemma forward_entry_spec (N D H C : nat) x w1 v1 w2 v2 (i c : nat) :
  (i < N)%nat -> (c < C)%nat ->
  forward_entry N D H C x w1 v1 w2 v2 i c
  = Spec.net_scores D H x w1 v1 w2 v2 i c.
Proof.
  intros Hi Hc. unfold forward_entry, Spec.net_scores, Spec.hidden.
  rewrite (bidx_lt C c Hc), (bidx_lt N i Hi). f_equal.
  apply rsum_ext. intros k Hk. rewrite !(bidx_lt H k Hk). reflexivity.
Qed.

(** C4: on [X] of shape (N, D) and parameters [W1] (H×D), [b1] (H), [W2]
    (C×H), [b2] (C), [TwoLayerNet.loss(X)] without [y] returns the score
    matrix alone, of shape (N, C), with
    [S = max(0, X·W1ᵗ + b1)·W2ᵗ + b2] entry by entry. *)
Theorem C4_loss_without_labels_returns_scores
  (N D H C : nat) (x w1 : nat -> nat -> R) (v1 : nat -> R)
  (w2 : nat -> nat -> R) (v2 : nat -> R) (reg : R) :
  exists S,
    TwoLayerNet.loss (net D H C w1 v1 w2 v2) (Arr2 N D x) None reg
    = Ok (TwoLayerNet.Scores (Arr2 N C S)) /\
    forall i c, (i < N)%nat -> (c < C)%nat ->
      S i c = Spec.net_scores D H x w1 v1 w2 v2 i c.
Proof.
  exists (forward_entry N D H C x w1 v1 w2 v2). split.
  - apply loss_scores.
  - intros i c Hi Hc. now apply forward_entry_spec.
Qed.

(* ================================================================== *)
(** * TwoLayerNet.loss with labels *)
(* ================================================================== *)

Lemma reshape2_column (n : nat) (f : nat -> R) :
  reshape2 (Arr1 n f) n 1 = Ok (Arr2 n 1 (fun i j => f (i * 1 + j)%nat)).
Proof.
  unfold reshape2. cbn [size]. now rewrite Nat.mul_1_r, Nat.eqb_refl.
Qed.

Ltac loss_step Hy Hl :=
  first
    [ match goal with
      | |- context [getitem_pairs (Arr2 ?n ?m ?f) (arange ?n) ?y] =>
          let g := fresh "picked" in
          let Eg := fresh "E" g in
          let Hg := fresh "H" g in
          destruct (getitem_pairs_arange n m f y Hy Hl) as (g & Eg & Hg);
          rewrite Eg; clear Eg; cbn [Py.bind]
      end
    | match goal with
      | |- context [isub_pairs (Arr2 ?n ?m ?f) (arange ?n) ?y ?v] =>
          let g := fresh "sg" in
          let Eg := fresh "E" g in
          destruct (isub_pairs_arange n m f y v Hy Hl) as (g & Eg);
          rewrite Eg; clear Eg; cbn [Py.bind]
      end
    | rewrite reshape2_column; cbn [Py.bind]
    | progress np_step ].

(** On a batch of shape (N, D) with N labels below C, [loss] returns the
    cross-entropy of the scores plus the L2 penalty, and gradients of the
    shapes of the parameters. *)
Lemma loss_with_labels (N D H C : nat) x w1 v1 w2 v2 (y : list nat) (reg : R) :
  length y = N -> Forall (fun l => (l < C)%nat) y ->
  exists gW1 gb1 gW2 gb2,
    TwoLayerNet.loss (net D H C w1 v1 w2 v2) (Arr2 N D x) (Some y) reg
    = Ok (TwoLayerNet.LossGrads
            (cross_entropy N C (forward_entry N D H C x w1 v1 w2 v2) y
             + 0.5 * reg * (sum_squares H D w1 + sum_squares C H w2))
            (net D H C gW1 gb1 gW2 gb2)).
Proof.
  intros Hy Hl. unfold TwoLayerNet.loss, net.
  repeat loss_step Hy Hl.
  do 4 eexists. do 2 f_equal.
  unfold mean, cross_entropy, sum_squares. cbn [Np.sum size].
  do 2 f_equal. apply rsum_ext. intros i Hi.
  rewrite (bidx_lt N i Hi), (Hpicked i Hi). subst. reflexivity.
Qed.

(** C5: on a non-empty batch with labels below C, with [reg = 0] and
    all-zero parameters, the loss [TwoLayerNet.loss] returns is [log(C)]. *)
Theorem C5_zero_parameters_give_log_of_class_count
  (N D H C : nat) (x w1 : nat -> nat -> R) (v1 : nat -> R)
  (w2 : nat -> nat -> R) (v2 : nat -> R) (y : list nat) :
  (0 < N)%nat ->
  length y = N ->
  Forall (fun l => (l < C)%nat) y ->
  (forall h d, (h < H)%nat -> (d < D)%nat -> w1 h d = 0) ->
  (forall h, (h < H)%nat -> v1 h = 0) ->
  (forall c h, (c < C)%nat -> (h < H)%nat -> w2 c h = 0) ->
  (forall c, (c < C)%nat -> v2 c = 0) ->
  exists grads,
    TwoLayerNet.loss (net D H C w1 v1 w2 v2) (Arr2 N D x) (Some y) 0
    = Ok (TwoLayerNet.LossGrads (ln (INR C)) grads).
Proof.
  intros HN Hy Hl Hw1 Hv1 Hw2 Hv2.
  destruct (loss_with_labels N D H C x w1 v1 w2 v2 y 0 Hy Hl)
    as (gW1 & gb1 & gW2 & gb2 & E).
  exists (net D H C gW1 gb1 gW2 gb2). rewrite E. do 2 f_equal.
  assert (HS : forall i c, (i < N)%nat -> (c < C)%nat ->
                forward_entry N D H C x w1 v1 w2 v2 i c = 0).
  { intros i c Hi Hc. rewrite (forward_entry_spec N D H C x w1 v1 w2 v2 i c Hi Hc).
    unfold Spec.net_scores. rewrite (Hv2 c Hc).
    rewrite rsum_zero; [lra|].
    intros h Hh. rewrite (Hw2 c h Hc Hh). lra. }
  unfold cross_entropy.
  rewrite (rsum_ext N _ (fun _ => ln (INR C))).
  - rewrite rsum_const.
    assert (INR N <> 0) by (apply not_0_INR; lia).
    field. assumption.
  - intros i Hi.
    assert (Hyi : (nth i y O < C)%nat).
    { rewrite Forall_forall in Hl. apply Hl, nth_In. lia. }
    rewrite (HS i _ Hi Hyi).
    rewrite (rsum_ext C _ (fun _ => 1)).
    + rewrite rsum_const. rewrite Rmult_1_r. lra.
    + intros c Hc. rewrite (HS i c Hi Hc). apply exp_0.
Qed.

(** The claim at a batch of two rows of three features, four hidden units
    and three classes. *)
Lemma C5_witness :
  exists grads,
    TwoLayerNet.loss
      (net 3 4 3 (fun _ _ => 0) (fun _ => 0) (fun _ _ => 0) (fun _ => 0))
      (Arr2 2 3 (fun i j => INR (i + j))) (Some [2%nat; O]) 0
    = Ok (TwoLayerNet.LossGrads (ln (INR 3)) grads).
Proof.
  apply (C5_zero_parameters_give_log_of_class_count 2 3 4 3).
  - lia.
  - reflexivity.
  - repeat constructor.
  - reflexivity.
  - reflexivity.
  - reflexivity.
  - reflexivity.
Defined.

(** C10: on every input matrix and every parameter set,
    [TwoLayerNet.predict(X)] is the row-wise arg-max of the scores
    [TwoLayerNet.loss(X)] returns without labels, and raises what [loss]
    raises. *)
Theorem C10_predict_is_argmax_of_loss_scores
  (self : TwoLayerNet.params) (N D : nat) (x : nat -> nat -> R) (reg : R) :
  TwoLayerNet.predict self (Arr2 N D x)
  = (r <- TwoLayerNet.loss self (Arr2 N D x) None reg ;;
     match r with
     | TwoLayerNet.Scores scores => argmax1 scores
     | TwoLayerNet.LossGrads _ _ => Raise TypeError
     end).
Proof.
  unfold TwoLayerNet.predict, TwoLayerNet.loss. cbn [shape2 Py.bind].
  destruct (dot (Arr2 N D x) (T (TwoLayerNet.W1 self))) as [h|e];
    cbn [Py.bind]; [|reflexivity].
  destruct (map2 Rplus h (TwoLayerNet.b1 self)) as [H1|e];
    cbn [Py.bind]; [|reflexivity].
  destruct (map2 Rmax (map1 (fun _ => 0) H1) H1) as [H1'|e];
    cbn [Py.bind]; [|reflexivity].
  destruct (dot H1' (T (TwoLayerNet.W2 self))) as [s|e];
    cbn [Py.bind]; [|reflexivity].
  destruct (map2 Rplus s (TwoLayerNet.b2 self)) as [scores|e];
    cbn [Py.bind]; reflexivity.
Qed.

(* ================================================================== *)
(** * Softmax.predict *)
(* ================================================================== *)

Lemma softmax_function_raises (X y_pred var : ndarray) :
  Softmax.softmax_function X y_pred var = Raise NameError.
Proof. reflexivity. Qed.

(** C7: [Softmax.predict] returns on no input.  [np.dot(self.W, X)] raises
    unless the feature count equals the row count, and where it returns,
    [softmax_function] reads the name [a], which no scope binds.  At
    [X = [[0]]], [W = [[0]]] the call ends in a NameError. *)
Theorem C7_predict_raises_on_every_input :
  (forall (self : Softmax.t) (X : ndarray), Py.raises (Softmax.predict self X))
  /\ Softmax.predict C7.self0 C7.X0 = Raise NameError.
Proof.
  split.
  - intros self X. unfold Py.raises, Softmax.predict.
    destruct (shape_at X 1) as [d|e]; cbn [Py.bind]; [|now exists e].
    destruct (dot (Softmax.W self) X) as [s|e]; cbn [Py.bind]; [|now exists e].
    rewrite softmax_function_raises. cbn [Py.bind]. now exists NameError.
  - reflexivity.
Qed.

(* ================================================================== *)
(** * Softmax.grad_check_sparse *)
(* ================================================================== *)

Lemma array_eq_refl (a : ndarray) : array_eq a a.
Proof. destruct a; cbn; auto. Qed.

Lemma array_eq_trans (a b c : ndarray) :
  array_eq a b -> array_eq b c -> array_eq a c.
Proof.
  destruct a, b, c; cbn; try tauto.
  - congruence.
  - intros [-> E1] [-> E2]. split; [reflexivity|].
    intros i Hi. now rewrite E1, E2.
  - intros (-> & -> & E1) (-> & -> & E2). repeat split.
    intros i j Hi Hj. now rewrite E1, E2.
Qed.

(** Writing an entry twice and then writing the value read before gives
    back the array. *)
Lemma setitem_restores (w w1 w2 w3 : ndarray) (ix : list nat) (oldval u v : R) :
  getitem w ix = Ok oldval ->
  setitem w ix u = Ok w1 ->
  setitem w1 ix v = Ok w2 ->
  setitem w2 ix oldval = Ok w3 ->
  array_eq w3 w.
Proof.
  destruct w as [s|n f|n m f].
  - cbn. discriminate.
  - destruct ix as [|i [|j rest]]; cbn -[Nat.ltb Nat.eqb]; try discriminate.
    destruct (i <? n)%nat eqn:Hin; [|discriminate].
    intros [= <-] [= <-]. cbn -[Nat.ltb Nat.eqb]. rewrite Hin.
    intros [= <-]. cbn -[Nat.ltb Nat.eqb]. rewrite Hin.
    intros [= <-]. cbn -[Nat.ltb Nat.eqb]. split; [reflexivity|].
    intros k Hk. destruct (Nat.eqb_spec k i) as [->|]; reflexivity.
  - destruct ix as [|i [|j [|l rest]]]; cbn -[Nat.ltb Nat.eqb]; try discriminate.
    + destruct (i <? n)%nat; discriminate.
    + destruct ((i <? n)%nat && (j <? m)%nat) eqn:Hin; [|discriminate].
      intros [= <-] [= <-]. cbn -[Nat.ltb Nat.eqb]. rewrite Hin.
      intros [= <-]. cbn -[Nat.ltb Nat.eqb]. rewrite Hin.
      intros [= <-]. cbn -[Nat.ltb Nat.eqb]. repeat split.
      intros k l Hk Hl.
      destruct (Nat.eqb_spec k i) as [->|]; [|reflexivity].
      destruct (Nat.eqb_spec l j) as [->|]; reflexivity.
Qed.

Lemma grad_check_step_restores (X : ndarray) (y : list nat) (your_grad : ndarray)
  (h : R) (raw : nat -> nat) (self self' : Softmax.t)
  (out out' : list Softmax.check_line) :
  Softmax.grad_check_step X y your_grad h raw (self, out) = Ok (self', out') ->
  array_eq (Softmax.W self') (Softmax.W self).
Proof.
  unfold Softmax.grad_check_step.
  match goal with
  | |- context [Py.bind ?d _] =>
      lazymatch d with
      | context [randint] => destruct d as [ix|e]
      end
  end; cbn [Py.bind]; [|discriminate].
  destruct (getitem (Softmax.W self) ix) as [oldval|e] eqn:Eget;
    cbn [Py.bind]; [|discriminate].
  destruct (setitem (Softmax.W self) ix (oldval + h)) as [wa|e] eqn:Ea;
    cbn [Py.bind Softmax.W]; [|discriminate].
  destruct (Softmax.loss _ X y) as [fxph|e]; cbn [Py.bind]; [|discriminate].
  destruct (setitem wa ix (oldval - h)) as [wb|e] eqn:Eb;
    cbn [Py.bind Softmax.W]; [|discriminate].
  destruct (Softmax.loss _ X y) as [fxmh|e]; cbn [Py.bind]; [|discriminate].
  destruct (setitem wb ix oldval) as [wc|e] eqn:Ec;
    cbn [Py.bind Softmax.W]; [|discriminate].
  destruct (getitem your_grad ix) as [ga|e]; cbn [Py.bind]; [|discriminate].
  intros [= <- _]. cbn [Softmax.W].
  exact (setitem_restores _ _ _ _ _ _ _ _ Eget Ea Eb Ec).
Qed.

Lemma grad_check_loop_restores (X : ndarray) (y : list nat) (your_grad : ndarray)
  (h : R) (randint_raw : nat -> nat -> nat) (checks : list nat) :
  forall (self self' : Softmax.t) (out out' : list Softmax.check_line),
    for_each checks
      (fun i st => Softmax.grad_check_step X y your_grad h (randint_raw i) st)
      (self, out) = Ok (self', out') ->
    array_eq (Softmax.W self') (Softmax.W self).
Proof.
  induction checks as [|i rest IH]; intros self self' out out'; cbn [for_each].
  - intros [= <- _]. apply array_eq_refl.
  - intro E. apply bind_returns in E. destruct E as ([s1 o1] & E1 & E2).
    apply array_eq_trans with (b := Softmax.W s1).
    + exact (IH _ _ _ _ E2).
    + exact (grad_check_step_restores _ _ _ _ _ _ _ _ _ E1).
Qed.

(** C9: when [Softmax.grad_check_sparse] returns, the weight matrix is,
    entry by entry and in its shape, the one before the call; the object
    has no other attribute. *)
Theorem C9_grad_check_sparse_restores_W
  (randint_raw : nat -> nat -> nat) (self self' : Softmax.t) (X : ndarray)
  (y : list nat) (your_grad : ndarray) (num_checks : nat) (h : R)
  (out : list Softmax.check_line) :
  Softmax.grad_check_sparse randint_raw self X y your_grad num_checks h
  = Ok (self', out) ->
  array_eq (Softmax.W self') (Softmax.W self).
Proof.
  unfold Softmax.grad_check_sparse. apply grad_check_loop_restores.
Qed.

(** Two checks on [W = [[1],[2]]]: the call returns, with [W] as before. *)
Lemma C9_witness :
  exists self' out,
    Softmax.grad_check_sparse C9.raw0 C9.self0 C9.X0 C9.y0 C9.grad0 2 1
    = Ok (self', out) /\
    array_eq (Softmax.W self') (Softmax.W C9.self0).
Proof.
  assert (E : exists r,
    Softmax.grad_check_sparse C9.raw0 C9.self0 C9.X0 C9.y0 C9.grad0 2 1 = Ok r).
  { eexists. cbn. reflexivity. }
  destruct E as ([self' out] & E).
  exists self', out. split; [exact E|].
  exact (C9_grad_check_sparse_restores_W _ _ _ _ _ _ _ _ _ E).
Defined.

(* ================================================================== *)
(** * What Softmax.loss and Softmax.loss_and_grad compute in general *)
(* ================================================================== *)

Lemma softmax_loss_value (N D C : nat) (x w : nat -> nat -> R) (y : list nat) :
  length y = N -> Forall (fun l => (l < C)%nat) y ->
  Softmax.loss {| Softmax.W := Arr2 C D w |} (Arr2 N D x) y
  = Ok (rsum N (fun i => rsum N (fun j =>
          - Spec.score D w x i (nth j y O)
          + ln (rsum C (fun c => exp (Spec.score D w x j c)))))
        / INR (N * N)).
Proof.
  intros Hy Hl. unfold Softmax.loss.
  cbn [Softmax.W T matmul dot]. rewrite Nat.eqb_refl. cbn [Py.bind take_cols].
  rewrite (proj2 (in_range_Forall C y) Hl), Hy.
  cbn [Py.bind map1 sum_axis map2]. rewrite bdim_same. cbn [Py.bind].
  unfold mean. cbn [Np.sum size]. do 2 f_equal.
  apply rsum_ext. intros i Hi. apply rsum_ext. intros j Hj.
  rewrite (bidx_lt N j Hj). unfold Spec.score.
  f_equal.
  - f_equal. apply rsum_ext. intros k _. lra.
  - f_equal. apply rsum_ext. intros c _. f_equal.
    apply rsum_ext. intros k _. lra.
Qed.

Lemma loss_and_grad_shape (self : Softmax.t) (N D : nat) (x : nat -> nat -> R)
  (y : list nat) (l : R) (g : ndarray) :
  Softmax.loss_and_grad self (Arr2 N D x) y = Ok (l, g) ->
  shape g = [D].
Proof.
  unfold Softmax.loss_and_grad. intro E.
  repeat (apply bind_returns in E; destruct E as (? & ? & E)).
  injection E as <- <-.
  match goal with
  | Hd : dot (T (Arr2 N D x)) ?d = Ok ?r, Hm : map2 Rminus (asarray _) (asarray y) = Ok ?d |- _ =>
      unfold asarray in Hm; cbn [map2] in Hm;
      apply bind_returns in Hm; destruct Hm as (? & _ & Hm);
      injection Hm as <-;
      cbn [T dot] in Hd;
      destruct (Nat.eqb N _); [|discriminate Hd];
      injection Hd as <-
  end.
  reflexivity.
Qed.

Lemma grad_check_step_returns (C D N : nat) (w x g : nat -> nat -> R)
  (y : list nat) (h : R) (raw : nat -> nat) (out : list Softmax.check_line) :
  C <> O -> D <> O -> length y = N -> Forall (fun l => (l < C)%nat) y ->
  exists w' line,
    Softmax.grad_check_step (Arr2 N D x) y (Arr2 C D g) h raw
      ({| Softmax.W := Arr2 C D w |}, out)
    = Ok ({| Softmax.W := Arr2 C D w' |}, out ++ [line]).
Proof.
  intros HC HD Hy Hl. unfold Softmax.grad_check_step, randint.
  cbn [Softmax.W shape].
  replace (C =? 0)%nat with false by (symmetry; now apply Nat.eqb_neq).
  replace (D =? 0)%nat with false by (symmetry; now apply Nat.eqb_neq).
  cbn [Py.bind getitem setitem].
  assert (Hin : ((raw 0 mod C <? C) && (raw 1 mod D <? D))%nat = true).
  { apply andb_true_iff.
    split; apply Nat.ltb_lt; now apply Nat.mod_upper_bound. }
  rewrite !Hin. cbn [Py.bind Softmax.W setitem].
  rewrite !Hin. cbn [Py.bind Softmax.W setitem].
  rewrite !(softmax_loss_value N D C x _ y Hy Hl). cbn [Py.bind].
  rewrite !Hin. cbn [Py.bind].
  do 2 eexists. reflexivity.
Qed.

(** On a weight matrix with at least one entry, a batch of its feature
    count with labels below its class count, and a gradient of its shape,
    [grad_check_sparse] returns. *)
Lemma grad_check_sparse_returns (randint_raw : nat -> nat -> nat)
  (C D N : nat) (w x g : nat -> nat -> R) (y : list nat)
  (num_checks : nat) (h : R) :
  C <> O -> D <> O -> length y = N -> Forall (fun l => (l < C)%nat) y ->
  Py.returns
    (Softmax.grad_check_sparse randint_raw {| Softmax.W := Arr2 C D w |}
       (Arr2 N D x) y (Arr2 C D g) num_checks h).
Proof.
  intros HC HD Hy Hl. unfold Softmax.grad_check_sparse.
  generalize (@nil Softmax.check_line) as out. revert w.
  induction (arange num_checks) as [|i rest IH]; intros w out; cbn [for_each].
  - eexists. reflexivity.
  - destruct (grad_check_step_returns C D N w x g y h (randint_raw i) out
                HC HD Hy Hl) as (w' & line & E).
    rewrite E. cbn [Py.bind]. apply IH.
Qed.

(* ================================================================== *)
(** * Softmax.train *)
(* ================================================================== *)

Lemma slice_labels_length (y : list nat) (N start b : nat) :
  length y = N ->
  length (slice_labels y start (start + b))
  = (Nat.min (start + b) N - Nat.min start N)%nat.
Proof.
  intro Hy. unfold slice_labels.
  rewrite length_firstn, length_skipn, Hy. lia.
Qed.

Lemma fast_loss_and_grad_returns (C D B : nat) (w xb : nat -> nat -> R)
  (yb : list nat) :
  C <> O -> length yb = B ->
  exists l g,
    Softmax.fast_loss_and_grad {| Softmax.W := Arr2 C D w |} (Arr2 B D xb) yb
    = Ok (l, Arr1 D g).
Proof.
  intros HC Hy. unfold Softmax.fast_loss_and_grad, asarray.
  assert (E0 : (C =? 0)%nat = false) by now apply Nat.eqb_neq.
  repeat (progress (rewrite ?Hy, ?E0, ?length_map, ?length_seq; np_step)).
  do 2 eexists. reflexivity.
Qed.

Lemma softmax_train_step_returns (C D N : nat) (x w : nat -> nat -> R)
  (y : list nat) (lr : R) (batch_size it : nat) (hist : list R) :
  C <> O -> length y = N ->
  exists l w',
    Softmax.train_step (Arr2 N D x) y lr batch_size it
      ({| Softmax.W := Arr2 C D w |}, hist)
    = Ok ({| Softmax.W := Arr2 C D w' |}, hist ++ [l]).
Proof.
  intros HC Hy. unfold Softmax.train_step. cbn [slice_rows Py.bind].
  destruct (fast_loss_and_grad_returns C D _ w
              (fun i j => x (Nat.min (it * batch_size) N + i)%nat j)
              (slice_labels y (it * batch_size) (it * batch_size + batch_size))
              HC (slice_labels_length y N _ _ Hy)) as (l & g & E).
  rewrite E. cbn [Py.bind Softmax.W map1 map2]. rewrite bdim_same.
  cbn [Py.bind]. do 2 eexists. reflexivity.
Qed.

Lemma softmax_train_loop_returns (C D N : nat) (x : nat -> nat -> R)
  (y : list nat) (lr : R) (batch_size : nat) (its : list nat) :
  C <> O -> length y = N ->
  forall (w : nat -> nat -> R) (hist : list R),
  exists w' hist',
    for_each its (Softmax.train_step (Arr2 N D x) y lr batch_size)
      ({| Softmax.W := Arr2 C D w |}, hist)
    = Ok ({| Softmax.W := Arr2 C D w' |}, hist')
    /\ length hist' = (length hist + length its)%nat.
Proof.
  intros HC Hy. induction its as [|it rest IH]; intros w hist; cbn [for_each].
  - exists w, hist. split; [reflexivity | cbn; lia].
  - destruct (softmax_train_step_returns C D N x w y lr batch_size it hist HC Hy)
      as (l & w1 & E).
    rewrite E. cbn [Py.bind].
    destruct (IH w1 (hist ++ [l])) as (w' & hist' & E' & Hlen).
    exists w', hist'. split; [exact E'|].
    rewrite Hlen, length_app. cbn. lia.
Qed.

(** [Softmax.train] returns on every non-empty training set, whatever the
    batch size, and the loss history has one entry per iteration. *)
Lemma softmax_train_returns (normal : nat -> nat -> R) (N D : nat)
  (x : nat -> nat -> R) (y : list nat) (lr : R) (num_iters batch_size : nat) :
  (0 < N)%nat -> length y = N ->
  exists self' hist,
    Softmax.train normal (Arr2 N D x) y lr num_iters batch_size
    = Ok (self', hist)
    /\ length hist = num_iters.
Proof.
  intros HN Hy. unfold Softmax.train.
  destruct y as [|l0 rest]; [cbn in Hy; lia|].
  cbn [shape2 max_label shape_at shape nth_error Py.bind Softmax.init_weights
       fst snd map1].
  destruct (softmax_train_loop_returns
              (fold_left Nat.max rest l0 + 1) D N x (l0 :: rest) lr batch_size
              (arange num_iters) ltac:(lia) Hy
              (fun i j => normal i j * 0.0001) [])
    as (w' & hist' & E & Hlen).
  unfold Softmax.init_weights. cbn [fst snd map1].
  rewrite E. do 2 eexists. split; [reflexivity|].
  rewrite Hlen. unfold arange. rewrite length_seq. reflexivity.
Qed.

(* ================================================================== *)
(** * TwoLayerNet.train *)
(* ================================================================== *)

Lemma random_choice_returns (raw : nat -> nat) (N B : nat) :
  N <> O ->
  exists idxs,
    random_choice raw N B = Ok idxs /\
    length idxs = B /\ Forall (fun k => (k < N)%nat) idxs.
Proof.
  intro HN. unfold random_choice.
  replace (N =? 0)%nat with false by (symmetry; now apply Nat.eqb_neq).
  cbn [andb]. eexists. split; [reflexivity|]. split.
  - now rewrite length_map, length_seq.
  - apply Forall_forall. intros k Hk. apply in_map_iff in Hk.
    destruct Hk as (j & <- & _). now apply Nat.mod_upper_bound.
Qed.

Lemma take_rows_returns (N D : nat) (x : nat -> nat -> R) (idxs : list nat) :
  Forall (fun k => (k < N)%nat) idxs ->
  take_rows (Arr2 N D x) idxs
  = Ok (Arr2 (length idxs) D (fun i j => x (nth i idxs O) j)).
Proof.
  intro Hi. unfold take_rows.
  now rewrite (proj2 (in_range_Forall N idxs) Hi).
Qed.

Lemma take_labels_returns (N C : nat) (y idxs : list nat) :
  length y = N ->
  Forall (fun l => (l < C)%nat) y ->
  Forall (fun k => (k < N)%nat) idxs ->
  exists yb,
    take_labels y idxs = Ok yb /\
    length yb = length idxs /\ Forall (fun l => (l < C)%nat) yb.
Proof.
  intros Hy Hl Hi. unfold take_labels. rewrite Hy.
  rewrite (proj2 (in_range_Forall N idxs) Hi).
  eexists. split; [reflexivity|]. split.
  - apply length_map.
  - rewrite Forall_forall in *. intros l Hin. apply in_map_iff in Hin.
    destruct Hin as (k & <- & Hk). apply Hl, nth_In. rewrite Hy. now apply Hi.
Qed.

Lemma imap2_same_shape2 (op : R -> R -> R) (n m : nat) (f g : nat -> nat -> R) :
  exists r, imap2 op (Arr2 n m f) (Arr2 n m g) = Ok (Arr2 n m r).
Proof.
  unfold imap2. cbn [map2]. rewrite !bdim_same. cbn [Py.bind shape].
  destruct (list_eq_dec Nat.eq_dec [n; m] [n; m]) as [_|E];
    [|now contradiction E].
  eexists. reflexivity.
Qed.

Lemma imap2_same_shape1 (op : R -> R -> R) (n : nat) (f g : nat -> R) :
  exists r, imap2 op (Arr1 n f) (Arr1 n g) = Ok (Arr1 n r).
Proof.
  unfold imap2. cbn [map2]. rewrite !bdim_same. cbn [Py.bind shape].
  destruct (list_eq_dec Nat.eq_dec [n] [n]) as [_|E]; [|now contradiction E].
  eexists. reflexivity.
Qed.

Lemma eq_labels_returns (a b : list nat) :
  length a = length b ->
  exists hit, eq_labels a b = Ok hit.
Proof.
  intro E. unfold eq_labels. rewrite E, bdim_same. cbn [Py.bind].
  eexists. reflexivity.
Qed.

Lemma predict_returns (N D H C : nat) x w1 v1 w2 v2 :
  C <> O ->
  exists p,
    TwoLayerNet.predict (net D H C w1 v1 w2 v2) (Arr2 N D x) = Ok p /\
    length p = N /\ Forall (fun l => (l < C)%nat) p.
Proof.
  intro HC. rewrite (predict_labels N D H C x w1 v1 w2 v2 HC).
  eexists. split; [reflexivity|]. split.
  - now rewrite length_map, length_seq.
  - apply Forall_forall. intros l Hl. apply in_map_iff in Hl.
    destruct Hl as (i & <- & _).
    assert (Hb : forall f k, (argmax_upto f k <= k)%nat).
    { intros f k. induction k as [|k IH]; cbn [argmax_upto]; [lia|].
      destruct (Rlt_dec _ _); lia. }
    specialize (Hb (forward_entry N D H C x w1 v1 w2 v2 i) (C - 1)%nat). lia.
Qed.

Section TrainStep.

Variables N D H C Nv : nat.
Variables (x xv : nat -> nat -> R) (y y_val : list nat).
Variables (decay reg : R) (batch_size : nat) (ipe : Q).
Variable raw : nat -> nat -> nat.

Hypothesis HN : N <> O.
Hypothesis Hy : length y = N.
Hypothesis Hl : Forall (fun l => (l < C)%nat) y.
Hypothesis Hyv : length y_val = Nv.

Lemma classes_nonempty : C <> O.
Proof.
  destruct y as [|l0 rest]; [cbn in Hy; lia|].
  inversion Hl; subst. lia.
Qed.

Lemma net_train_step_returns (it : nat) (st : TwoLayerNet.train_state) :
  has_shapes D H C (TwoLayerNet.self_params st) ->
  exists st',
    TwoLayerNet.train_step (Arr2 N D x) y (Arr2 Nv D xv) y_val decay reg
      N batch_size ipe raw it st = Ok st' /\
    has_shapes D H C (TwoLayerNet.self_params st') /\
    length (TwoLayerNet.loss_history (TwoLayerNet.history st'))
    = S (length (TwoLayerNet.loss_history (TwoLayerNet.history st))) /\
    length (TwoLayerNet.train_acc_history (TwoLayerNet.history st'))
    = (length (TwoLayerNet.train_acc_history (TwoLayerNet.history st))
       + (if TwoLayerNet.epoch_boundary it ipe then 1 else 0))%nat /\
    length (TwoLayerNet.val_acc_history (TwoLayerNet.history st'))
    = (length (TwoLayerNet.val_acc_history (TwoLayerNet.history st))
       + (if TwoLayerNet.epoch_boundary it ipe then 1 else 0))%nat.
Proof.
  intros (w1 & v1 & w2 & v2 & Ep).
  pose proof classes_nonempty as HC.
  unfold TwoLayerNet.train_step. rewrite Ep.
  destruct (random_choice_returns (raw it) N batch_size HN)
    as (idxs & Ec & Hlen & Hin).
  rewrite Ec. cbn [Py.bind].
  rewrite (take_rows_returns N D x idxs Hin). cbn [Py.bind].
  destruct (take_labels_returns N C y idxs Hy Hl Hin) as (yb & Eyb & Hyb & Hlb).
  rewrite Eyb. cbn [Py.bind].
  destruct (loss_with_labels (length idxs) D H C
              (fun i j => x (nth i idxs O) j) w1 v1 w2 v2 yb reg Hyb Hlb)
    as (gW1 & gb1 & gW2 & gb2 & El).
  rewrite El. cbn [Py.bind]. unfold net.
  cbn [TwoLayerNet.W1 TwoLayerNet.b1 TwoLayerNet.W2 TwoLayerNet.b2 map1].
  repeat
    match goal with
    | |- context [imap2 ?op (Arr2 ?n ?m ?f) (Arr2 ?n ?m ?g)] =>
        let r := fresh "w" in
        let E := fresh "E" in
        destruct (imap2_same_shape2 op n m f g) as (r & E);
        rewrite E; clear E; cbn [Py.bind]
    | |- context [imap2 ?op (Arr1 ?n ?f) (Arr1 ?n ?g)] =>
        let r := fresh "v" in
        let E := fresh "E" in
        destruct (imap2_same_shape1 op n f g) as (r & E);
        rewrite E; clear E; cbn [Py.bind]
    end.
  destruct (TwoLayerNet.epoch_boundary it ipe).
  - match goal with
    | |- context [TwoLayerNet.predict
                    {| TwoLayerNet.W1 := Arr2 _ _ ?f1; TwoLayerNet.b1 := Arr1 _ ?f2;
                       TwoLayerNet.W2 := Arr2 _ _ ?f3; TwoLayerNet.b2 := Arr1 _ ?f4 |}
                    _] =>
        destruct (predict_returns (length idxs) D H C
                    (fun i j => x (nth i idxs O) j) f1 f2 f3 f4 HC)
          as (p & Epb & Hpl & _);
        destruct (predict_returns Nv D H C xv f1 f2 f3 f4 HC)
          as (pv & Epv & Hpvl & _);
        unfold net in Epb, Epv; rewrite Epb, Epv
    end.
    cbn [Py.bind].
    destruct (eq_labels_returns p yb ltac:(congruence)) as (hit & Ehit).
    destruct (eq_labels_returns pv y_val ltac:(congruence)) as (hitv & Ehitv).
    rewrite Ehit, Ehitv. cbn [Py.bind].
    eexists. split; [reflexivity|].
    cbn [TwoLayerNet.self_params TwoLayerNet.history TwoLayerNet.loss_history
         TwoLayerNet.train_acc_history TwoLayerNet.val_acc_history].
    split; [do 4 eexists; reflexivity|].
    rewrite !length_app. cbn [length]. lia.
  - eexists. split; [reflexivity|].
    cbn [TwoLayerNet.self_params TwoLayerNet.history TwoLayerNet.loss_history
         TwoLayerNet.train_acc_history TwoLayerNet.val_acc_history].
    split; [do 4 eexists; reflexivity|].
    rewrite !length_app. cbn [length]. lia.
Qed.

Lemma net_train_loop_returns (its : list nat) :
  forall st : TwoLayerNet.train_state,
    has_shapes D H C (TwoLayerNet.self_params st) ->
    exists st',
      for_each its
        (TwoLayerNet.train_step (Arr2 N D x) y (Arr2 Nv D xv) y_val decay reg
           N batch_size ipe raw) st = Ok st' /\
      has_shapes D H C (TwoLayerNet.self_params st') /\
      length (TwoLayerNet.loss_history (TwoLayerNet.history st'))
      = (length (TwoLayerNet.loss_history (TwoLayerNet.history st))
         + length its)%nat /\
      length (TwoLayerNet.train_acc_history (TwoLayerNet.history st'))
      = (length (TwoLayerNet.train_acc_history (TwoLayerNet.history st))
         + length (filter (fun it => TwoLayerNet.epoch_boundary it ipe) its))%nat /\
      length (TwoLayerNet.val_acc_history (TwoLayerNet.history st'))
      = (length (TwoLayerNet.val_acc_history (TwoLayerNet.history st))
         + length (filter (fun it => TwoLayerNet.epoch_boundary it ipe) its))%nat.
Proof.
  induction its as [|it rest IH]; intros st Hst; cbn [for_each filter].
  - exists st. repeat split; try assumption; cbn [length]; lia.
  - destruct (net_train_step_returns it st Hst)
      as (st1 & E1 & Hs1 & Hl1 & Ht1 & Hv1).
    rewrite E1. cbn [Py.bind].
    destruct (IH st1 Hs1) as (st' & E' & Hs' & Hl' & Ht' & Hv').
    exists st'. split; [exact E'|]. split; [exact Hs'|].
    rewrite Hl', Ht', Hv', Hl1, Ht1, Hv1.
    destruct (TwoLayerNet.epoch_boundary it ipe); cbn [length]; lia.
Qed.

End TrainStep.

(** On a non-empty training set of well-shaped data, with a positive batch
    size, [TwoLayerNet.train] returns; the loss history has one entry per
    iteration and each accuracy history one entry per iteration [it] with
    [it % iterations_per_epoch == 0]. *)
Lemma net_train_returns (raw : nat -> nat -> nat) (N D H C Nv : nat)
  (x xv : nat -> nat -> R) (y y_val : list nat) (self : TwoLayerNet.params)
  (lr decay reg : R) (num_iters batch_size : nat) :
  N <> O -> length y = N -> Forall (fun l => (l < C)%nat) y ->
  length y_val = Nv -> has_shapes D H C self -> batch_size <> O ->
  exists self' hist,
    TwoLayerNet.train raw self (Arr2 N D x) y (Arr2 Nv D xv) y_val
      lr decay reg num_iters batch_size = Ok (self', hist) /\
    has_shapes D H C self' /\
    length (TwoLayerNet.loss_history hist) = num_iters /\
    length (TwoLayerNet.train_acc_history hist)
    = length (epoch_boundaries num_iters
                (Py.max (Py.float_quotient N batch_size) 1)) /\
    length (TwoLayerNet.val_acc_history hist)
    = length (epoch_boundaries num_iters
                (Py.max (Py.float_quotient N batch_size) 1)).
Proof.
  intros HN Hy Hl Hyv Hself HB. unfold TwoLayerNet.train, Py.truediv.
  cbn [shape_at shape nth_error Py.bind].
  replace (batch_size =? 0)%nat with false by (symmetry; now apply Nat.eqb_neq).
  cbn [Py.bind].
  match goal with
  | |- context [for_each ?its ?f ?st] =>
      destruct (net_train_loop_returns N D H C Nv x xv y y_val decay reg
                  batch_size (Py.max (Py.float_quotient N batch_size) 1)
                  raw HN Hy Hl Hyv its st Hself)
        as (st' & E & Hs & Hlen & Ht & Hv)
  end.
  rewrite E. cbn [Py.bind]. do 2 eexists. split; [reflexivity|].
  split; [exact Hs|].
  rewrite Hlen, Ht, Hv. unfold epoch_boundaries, arange.
  cbn [TwoLayerNet.history TwoLayerNet.loss_history
       TwoLayerNet.train_acc_history TwoLayerNet.val_acc_history length].
  rewrite length_seq. repeat split.
Qed.

(* ================================================================== *)
(** * The histories of train *)
(* ================================================================== *)

(** C6 at the input where the code departs from it.  Five training rows in
    batches of two, five iterations: [iterations_per_epoch] is 2.5, a run
    of five iterations is two epochs, [⌈5 / 2.5⌉ = 2], and [train] returns
    five losses but one entry in each accuracy history, the one of
    iteration 0: no later [it] has [it % 2.5 == 0].  Four rows in batches
    of three: the float [4 / 3] is no multiple of anything the counter
    reaches, again one entry, where [⌈5 / (4/3)⌉ = 4]. *)
Theorem C6_accuracy_history_shorter_than_epochs :
  (exists self' hist,
     TwoLayerNet.train Toy.raw0 Toy.self0 Toy.X0 Toy.y0 Toy.X_val0 Toy.y_val0
       1 1 0 5 2 = Ok (self', hist)
     /\ length (TwoLayerNet.loss_history hist) = 5%nat
     /\ length (TwoLayerNet.train_acc_history hist) = 1%nat
     /\ length (TwoLayerNet.val_acc_history hist) = 1%nat)
  /\ epoch_boundaries 5 (Py.max (Py.float_quotient 5 2) 1) = [O]
  /\ Spec.epochs 5 5 2 = 2%Z
  /\ (exists self' hist,
        TwoLayerNet.train Toy.raw0 Toy.self0 Toy.X4 Toy.y4 Toy.X_val0 Toy.y_val0
          1 1 0 5 3 = Ok (self', hist)
        /\ length (TwoLayerNet.loss_history hist) = 5%nat
        /\ length (TwoLayerNet.train_acc_history hist) = 1%nat
        /\ length (TwoLayerNet.val_acc_history hist) = 1%nat)
  /\ epoch_boundaries 5 (Py.max (Py.float_quotient 4 3) 1) = [O]
  /\ Spec.epochs 5 4 3 = 4%Z.
Proof.
  assert (E52 : epoch_boundaries 5 (Py.max (Py.float_quotient 5 2) 1) = [O])
    by (vm_compute; reflexivity).
  assert (E43 : epoch_boundaries 5 (Py.max (Py.float_quotient 4 3) 1) = [O])
    by (vm_compute; reflexivity).
  split; [|split; [exact E52|split; [reflexivity|split; [|split; [exact E43|reflexivity]]]]].
  - destruct (net_train_returns Toy.raw0 5 1 1 1 1 (fun _ _ => 0) (fun _ _ => 0)
                Toy.y0 Toy.y_val0 Toy.self0 1 1 0 5 2)
      as (self' & hist & E & _ & Hlen & Ht & Hv).
    + lia.
    + reflexivity.
    + repeat constructor.
    + reflexivity.
    + unfold has_shapes, Toy.self0. do 4 eexists. reflexivity.
    + lia.
    + exists self', hist. split; [exact E|]. rewrite Hlen, Ht, Hv, E52.
      repeat split.
  - destruct (net_train_returns Toy.raw0 4 1 1 1 1 (fun _ _ => 0) (fun _ _ => 0)
                Toy.y4 Toy.y_val0 Toy.self0 1 1 0 5 3)
      as (self' & hist & E & _ & Hlen & Ht & Hv).
    + lia.
    + reflexivity.
    + repeat constructor.
    + reflexivity.
    + unfold has_shapes, Toy.self0. do 4 eexists. reflexivity.
    + lia.
    + exists self', hist. split; [exact E|]. rewrite Hlen, Ht, Hv, E43.
      repeat split.
Qed.

(* ================================================================== *)
(** * Degenerate batch sizes *)
(* ================================================================== *)

(** C8, as the code has it: [TwoLayerNet.train] with [batch_size = 0]
    raises, a ZeroDivisionError from [num_train / batch_size];
    [Softmax.train], which slices the training set, returns for every batch
    size, 0 and sizes above [num_train] included; [TwoLayerNet.train], which
    samples with replacement, returns for every positive batch size. *)
Theorem C8_batch_sizes
  (normal : nat -> nat -> R) (raw : nat -> nat -> nat)
  (N D H C Nv : nat) (x xv : nat -> nat -> R) (y y_val : list nat)
  (self : TwoLayerNet.params) (lr decay reg : R) (num_iters : nat) :
  N <> O -> length y = N -> Forall (fun l => (l < C)%nat) y ->
  length y_val = Nv -> has_shapes D H C self ->
  TwoLayerNet.train raw self (Arr2 N D x) y (Arr2 Nv D xv) y_val
    lr decay reg num_iters 0 = Raise ZeroDivisionError
  /\
  (forall batch_size,
     Py.returns (Softmax.train normal (Arr2 N D x) y lr num_iters batch_size))
  /\
  (forall batch_size, batch_size <> O ->
     Py.returns
       (TwoLayerNet.train raw self (Arr2 N D x) y (Arr2 Nv D xv) y_val
          lr decay reg num_iters batch_size)).
Proof.
  intros HN Hy Hl Hyv Hself. split; [reflexivity|]. split.
  - intro batch_size.
    destruct (softmax_train_returns normal N D x y lr num_iters batch_size
                ltac:(lia) Hy) as (s & hist & E & _).
    now exists (s, hist).
  - intros batch_size HB.
    destruct (net_train_returns raw N D H C Nv x xv y y_val self lr decay reg
                num_iters batch_size HN Hy Hl Hyv Hself HB)
      as (self' & hist & E & _).
    now exists (self', hist).
Qed.

(** The statement at five training rows of one feature. *)
Lemma C8_witness :
  TwoLayerNet.train Toy.raw0 Toy.self0 Toy.X0 Toy.y0 Toy.X_val0 Toy.y_val0
    1 1 0 5 0 = Raise ZeroDivisionError
  /\
  (forall batch_size,
     Py.returns (Softmax.train Toy.normal0 Toy.X0 Toy.y0 1 5 batch_size))
  /\
  (forall batch_size, batch_size <> O ->
     Py.returns
       (TwoLayerNet.train Toy.raw0 Toy.self0 Toy.X0 Toy.y0 Toy.X_val0 Toy.y_val0
          1 1 0 5 batch_size)).
Proof.
  apply (C8_batch_sizes Toy.normal0 Toy.raw0 5 1 1 1 1
           (fun _ _ => 0) (fun _ _ => 0) Toy.y0 Toy.y_val0 Toy.self0 1 1 0 5).
  - lia.
  - reflexivity.
  - repeat constructor.
  - reflexivity.
  - unfold has_shapes, Toy.self0. do 4 eexists. reflexivity.
Defined.

(** C8 as stated fails: [Softmax.train] with [batch_size = 0] returns, and
    so it does with a batch size above the number of training rows. *)
Lemma C8_softmax_train_returns_on_degenerate_batch_sizes :
  Py.returns (Softmax.train Toy.normal0 C8.X0 C8.y0 1 3 0)
  /\ ~ Py.raises (Softmax.train Toy.normal0 C8.X0 C8.y0 1 3 0)
  /\ Py.returns (Softmax.train Toy.normal0 C8.X0 C8.y0 1 3 7).
Proof.
  assert (R0 : forall b, Py.returns (Softmax.train Toy.normal0 C8.X0 C8.y0 1 3 b)).
  { intro b.
    destruct (softmax_train_returns Toy.normal0 1 1 (fun _ _ => 1) C8.y0 1 3 b
                ltac:(lia) eq_refl) as (s & hist & E & _).
    now exists (s, hist). }
  split; [apply R0|]. split; [|apply R0].
  destruct (R0 O) as (r & E). intros (e & E'). congruence.
Qed.

(* ================================================================== *)
(** * Softmax: values, shapes and errors of the three loss methods *)
(* ================================================================== *)

(** X1: on a non-empty batch of shape (N, D) with N labels below C,
    [Softmax.loss] returns the mean, over all N·N pairs of a row [i] and a
    label position [j], of [-s_{i,y_j} + log(sum_c exp(s_{j,c}))]. *)
Theorem softmax_loss_is_mean_over_all_pairs
  (N D C : nat) (x w : nat -> nat -> R) (y : list nat) :
  (0 < N)%nat -> length y = N -> Forall (fun l => (l < C)%nat) y ->
  Softmax.loss {| Softmax.W := Arr2 C D w |} (Arr2 N D x) y
  = Ok (rsum N (fun i => rsum N (fun j =>
          - Spec.score D w x i (nth j y O)
          + ln (rsum C (fun c => exp (Spec.score D w x j c)))))
        / INR (N * N)).
Proof. intros _. apply softmax_loss_value. Qed.

Lemma softmax_loss_is_mean_over_all_pairs_witness :
  Softmax.loss X.softmax3 X.X2 X.y2
  = Ok (rsum 2 (fun i => rsum 2 (fun j =>
          - Spec.score 2 X.w3 X.x2 i (nth j X.y2 O)
          + ln (rsum 3 (fun c => exp (Spec.score 2 X.w3 X.x2 j c)))))
        / INR (2 * 2)).
Proof.
  apply (softmax_loss_is_mean_over_all_pairs 2 2 3 X.x2 X.w3 X.y2).
  - lia.
  - reflexivity.
  - repeat constructor.
Defined.

(** X2: on a batch of one row with its label below C, [Softmax.loss]
    returns the cross-entropy of that row,
    [-s_{0,y_0} + log(sum_c exp(s_{0,c}))]. *)
Theorem softmax_loss_single_row
  (D C : nat) (x w : nat -> nat -> R) (l : nat) :
  (l < C)%nat ->
  Softmax.loss {| Softmax.W := Arr2 C D w |} (Arr2 1 D x) [l]
  = Ok (- Spec.score D w x 0 l
        + ln (rsum C (fun c => exp (Spec.score D w x 0 c)))).
Proof.
  intro Hl.
  rewrite (softmax_loss_value 1 D C x w [l] eq_refl) by (repeat constructor; exact Hl).
  f_equal. cbn [rsum nth Nat.mul Nat.add INR]. field.
Qed.

Lemma softmax_loss_single_row_witness :
  Softmax.loss X.softmax3 (Arr2 1 2 X.x2) [1%nat]
  = Ok (- Spec.score 2 X.w3 X.x2 0 1
        + ln (rsum 3 (fun c => exp (Spec.score 2 X.w3 X.x2 0 c)))).
Proof.
  apply (softmax_loss_single_row 2 3 X.x2 X.w3 1). lia.
Defined.

Lemma in_range_false (bound : nat) (idx : list nat) (l : nat) :
  In l idx -> (bound <= l)%nat -> in_range bound idx = false.
Proof.
  intros Hin Hle. destruct (in_range bound idx) eqn:E; [|reflexivity].
  apply in_range_Forall in E. rewrite Forall_forall in E.
  specialize (E l Hin). lia.
Qed.

(** X3: a label that is not below the number of classes makes
    [Softmax.loss] raise an IndexError. *)
Theorem softmax_loss_label_out_of_range
  (N D C : nat) (x w : nat -> nat -> R) (y : list nat) (l : nat) :
  In l y -> (C <= l)%nat ->
  Softmax.loss {| Softmax.W := Arr2 C D w |} (Arr2 N D x) y = Raise IndexError.
Proof.
  intros Hin Hle. unfold Softmax.loss.
  cbn [Softmax.W T matmul dot]. rewrite Nat.eqb_refl. cbn [Py.bind take_cols].
  now rewrite (in_range_false C y l Hin Hle).
Qed.

Lemma softmax_loss_label_out_of_range_witness :
  Softmax.loss X.softmax3 X.X2 [O; 3%nat] = Raise IndexError.
Proof.
  apply (softmax_loss_label_out_of_range 2 2 3 X.x2 X.w3 [O; 3%nat] 3).
  - cbn. tauto.
  - lia.
Defined.

(** X4: when the rows of [X] do not have the feature count of [W], the
    three loss methods of [Softmax] raise a ValueError. *)
Theorem softmax_feature_count_mismatch
  (N D D' C : nat) (x w : nat -> nat -> R) (y : list nat) :
  D' <> D ->
  Softmax.loss {| Softmax.W := Arr2 C D w |} (Arr2 N D' x) y = Raise ValueError
  /\ Softmax.loss_and_grad {| Softmax.W := Arr2 C D w |} (Arr2 N D' x) y
     = Raise ValueError
  /\ Softmax.fast_loss_and_grad {| Softmax.W := Arr2 C D w |} (Arr2 N D' x) y
     = Raise ValueError.
Proof.
  intro Hd.
  assert (E : (D' =? D)%nat = false) by now apply Nat.eqb_neq.
  unfold Softmax.loss, Softmax.loss_and_grad, Softmax.fast_loss_and_grad.
  cbn [Softmax.W T matmul dot]. rewrite E. cbn [Py.bind]. repeat split.
Qed.

Lemma softmax_feature_count_mismatch_witness :
  Softmax.loss X.softmax3 (Arr2 2 5 X.x2) X.y2 = Raise ValueError
  /\ Softmax.loss_and_grad X.softmax3 (Arr2 2 5 X.x2) X.y2 = Raise ValueError
  /\ Softmax.fast_loss_and_grad X.softmax3 (Arr2 2 5 X.x2) X.y2
     = Raise ValueError.
Proof.
  apply (softmax_feature_count_mismatch 2 2 5 3 X.x2 X.w3 X.y2). lia.
Defined.

(** X5: on a batch whose row count differs from the class count, neither
    of them being one, [Softmax.loss_and_grad] raises a ValueError:
    [np.log(denominator) - y] cannot be broadcast. *)
Theorem loss_and_grad_raises_unless_square
  (N D C : nat) (x w : nat -> nat -> R) (y : list nat) :
  length y = N -> C <> N -> C <> 1%nat -> N <> 1%nat ->
  Softmax.loss_and_grad {| Softmax.W := Arr2 C D w |} (Arr2 N D x) y
  = Raise ValueError.
Proof.
  intros Hy HCN HC1 HN1. unfold Softmax.loss_and_grad, asarray.
  cbn [Softmax.W T dot]. rewrite Nat.eqb_refl.
  cbn [Py.bind map1 sum_axis shape_at shape nth_error tile_rows T map2].
  rewrite !bdim_same. cbn [Py.bind map1 map2]. rewrite Hy.
  unfold bdim.
  replace (C =? N)%nat with false by (symmetry; now apply Nat.eqb_neq).
  replace (C =? 1)%nat with false by (symmetry; now apply Nat.eqb_neq).
  replace (N =? 1)%nat with false by (symmetry; now apply Nat.eqb_neq).
  reflexivity.
Qed.

Lemma loss_and_grad_raises_unless_square_witness :
  Softmax.loss_and_grad X.softmax3 X.X2 X.y2 = Raise ValueError.
Proof.
  apply (loss_and_grad_raises_unless_square 2 2 3 X.x2 X.w3 X.y2).
  - reflexivity.
  - lia.
  - lia.
  - lia.
Defined.

Lemma argmax_upto_ext (f g : nat -> R) (k : nat) :
  (forall j, (j <= k)%nat -> f j = g j) ->
  argmax_upto f k = argmax_upto g k.
Proof.
  induction k as [|k IH]; intro E; cbn [argmax_upto]; [reflexivity|].
  rewrite <- IH by (intros j Hj; apply E; lia).
  assert (Hb : (argmax_upto f k <= k)%nat).
  { clear. induction k as [|k IH]; cbn [argmax_upto]; [lia|].
    destruct (Rlt_dec _ _); lia. }
  rewrite <- (E (argmax_upto f k)) by lia.
  rewrite <- (E (S k)) by lia. reflexivity.
Qed.

Lemma rmax_upto_ext (f g : nat -> R) (k : nat) :
  (forall j, (j <= k)%nat -> f j = g j) ->
  rmax_upto f k = rmax_upto g k.
Proof.
  induction k as [|k IH]; intro E; cbn [rmax_upto].
  - apply E. lia.
  - rewrite IH by (intros j Hj; apply E; lia).
    rewrite (E (S k)) by lia. reflexivity.
Qed.

(** The label [np.argmax] gives row [i] of the probabilities of the scores
    [X·Wᵗ]. *)
Lemma predicted_label_eq (N D C : nat) (x w : nat -> nat -> R) (i : nat) :
  C <> O -> (i < N)%nat ->
  nth (bidx N i)
    (map (fun i0 =>
            argmax_upto
              (fun j => exp (rsum D (fun k => x (bidx N i0) k * w (bidx C j) k))
                        / rsum C (fun j0 =>
                            exp (rsum D (fun k => x (bidx N i0) k * w j0 k))))
              (C - 1))
         (seq 0 N)) O
  = argmax_upto (softmax_prob C (linear_scores D x w) i) (C - 1).
Proof.
  intros HC Hi. rewrite (bidx_lt N i Hi), nth_map_seq by exact Hi.
  apply argmax_upto_ext. intros j Hj.
  rewrite (bidx_lt N i Hi), (bidx_lt C j) by lia. reflexivity.
Qed.

(** X6: on a non-empty batch of shape (N, D) with N labels, and at least
    one class, [Softmax.fast_loss_and_grad] returns; the loss is the mean over the
    rows of [-log(max_c P[i,c]) * y_i] and the gradient is the vector
    [Xᵗ·(argmax(P) - y) / N] of shape (D,), with [P] the softmax
    probabilities of the scores [X·Wᵗ]. *)
Theorem fast_loss_and_grad_value
  (N D C : nat) (x w : nat -> nat -> R) (y : list nat) :
  N <> O -> C <> O -> length y = N ->
  exists l g,
    Softmax.fast_loss_and_grad {| Softmax.W := Arr2 C D w |} (Arr2 N D x) y
    = Ok (l, Arr1 D g)
    /\ l = rsum N (fun i =>
             -1 * ln (rmax_upto (softmax_prob C (linear_scores D x w) i) (C - 1))
             * INR (nth i y O)) / INR N
    /\ forall d, (d < D)%nat ->
         g d = rsum N (fun i =>
                 x i d * (INR (argmax_upto
                                 (softmax_prob C (linear_scores D x w) i) (C - 1))
                          - INR (nth i y O))) / INR N.
Proof.
  intros _ HC Hy. unfold Softmax.fast_loss_and_grad, asarray.
  assert (E0 : (C =? 0)%nat = false) by now apply Nat.eqb_neq.
  repeat (progress (rewrite ?Hy, ?E0, ?length_map, ?length_seq; np_step)).
  clear Hy. do 2 eexists. split; [reflexivity|]. split.
  - unfold mean. cbn [Np.sum size]. f_equal.
    apply rsum_ext. intros i Hi. rewrite (bidx_lt N i Hi). subst.
    do 3 f_equal. apply rmax_upto_ext. intros j Hj.
    rewrite (bidx_lt N i Hi), (bidx_lt C j) by lia. reflexivity.
  - intros d Hd. subst. f_equal. apply rsum_ext. intros i Hi.
    rewrite (predicted_label_eq N D C x w i HC Hi), (bidx_lt N i Hi).
    reflexivity.
Qed.

Lemma fast_loss_and_grad_value_witness :
  exists l g,
    Softmax.fast_loss_and_grad X.softmax3 X.X2 X.y2 = Ok (l, Arr1 2 g)
    /\ l = rsum 2 (fun i =>
             -1 * ln (rmax_upto
                        (softmax_prob 3 (linear_scores 2 X.x2 X.w3) i) (3 - 1))
             * INR (nth i X.y2 O)) / INR 2
    /\ forall d, (d < 2)%nat ->
         g d = rsum 2 (fun i =>
                 X.x2 i d
                 * (INR (argmax_upto
                           (softmax_prob 3 (linear_scores 2 X.x2 X.w3) i) (3 - 1))
                    - INR (nth i X.y2 O))) / INR 2.
Proof.
  apply (fast_loss_and_grad_value 2 2 3 X.x2 X.w3 X.y2).
  - lia.
  - lia.
  - reflexivity.
Defined.

(** X7: on a batch with as many rows as there are classes,
    [Softmax.loss_and_grad] returns; the loss is the mean over all pairs
    of a row [i] and a label position [j] of [log(sum_c exp(s_{i,c})) - y_j]
    and the gradient is the vector [Xᵗ·(argmax(P) - y) / N]. *)
Theorem loss_and_grad_value_on_square_batch
  (N D : nat) (x w : nat -> nat -> R) (y : list nat) :
  N <> O -> length y = N ->
  exists l g,
    Softmax.loss_and_grad {| Softmax.W := Arr2 N D w |} (Arr2 N D x) y
    = Ok (l, Arr1 D g)
    /\ l = rsum N (fun i => rsum N (fun j =>
             ln (rsum N (fun c => exp (linear_scores D x w i c)))
             - INR (nth j y O))) / INR (N * N)
    /\ forall d, (d < D)%nat ->
         g d = rsum N (fun i =>
                 x i d * (INR (argmax_upto
                                 (softmax_prob N (linear_scores D x w) i) (N - 1))
                          - INR (nth i y O))) / INR N.
Proof.
  intros HN Hy. unfold Softmax.loss_and_grad, asarray.
  assert (E0 : (N =? 0)%nat = false) by now apply Nat.eqb_neq.
  repeat (progress (rewrite ?Hy, ?E0, ?length_map, ?length_seq; np_step)).
  clear Hy. do 2 eexists. split; [reflexivity|]. split.
  - unfold mean. cbn [Np.sum size]. f_equal.
    apply rsum_ext. intros i Hi. apply rsum_ext. intros j Hj.
    rewrite (bidx_lt N j Hj). subst. reflexivity.
  - intros d Hd. subst. f_equal. apply rsum_ext. intros i Hi.
    rewrite (predicted_label_eq N D N x w i HN Hi), (bidx_lt N i Hi).
    reflexivity.
Qed.

Lemma loss_and_grad_value_on_square_batch_witness :
  exists l g,
    Softmax.loss_and_grad X.softmax3 X.X3 X.y3 = Ok (l, Arr1 2 g)
    /\ l = rsum 3 (fun i => rsum 3 (fun j =>
             ln (rsum 3 (fun c => exp (linear_scores 2 X.x2 X.w3 i c)))
             - INR (nth j X.y3 O))) / INR (3 * 3)
    /\ forall d, (d < 2)%nat ->
         g d = rsum 3 (fun i =>
                 X.x2 i d
                 * (INR (argmax_upto
                           (softmax_prob 3 (linear_scores 2 X.x2 X.w3) i) (3 - 1))
                    - INR (nth i X.y3 O))) / INR 3.
Proof.
  apply (loss_and_grad_value_on_square_batch 3 2 X.x2 X.w3 X.y3).
  - lia.
  - reflexivity.
Defined.

(** X8: whenever [Softmax.loss_and_grad] and [Softmax.fast_loss_and_grad]
    both return on the same object and batch, they return the same
    gradient. *)
Theorem fast_gradient_equals_gradient
  (self : Softmax.t) (X : ndarray) (y : list nat) (l l' : R) (g g' : ndarray) :
  Softmax.loss_and_grad self X y = Ok (l, g) ->
  Softmax.fast_loss_and_grad self X y = Ok (l', g') ->
  g = g'.
Proof.
  unfold Softmax.loss_and_grad, Softmax.fast_loss_and_grad. intros E E'.
  repeat (apply bind_returns in E; destruct E as (? & ? & E)).
  repeat (apply bind_returns in E'; destruct E' as (? & ? & E')).
  injection E as <- <-. injection E' as <- <-.
  congruence.
Qed.

Lemma fast_gradient_equals_gradient_witness :
  exists l g l' g',
    Softmax.loss_and_grad X.softmax3 X.X3 X.y3 = Ok (l, g)
    /\ Softmax.fast_loss_and_grad X.softmax3 X.X3 X.y3 = Ok (l', g')
    /\ g = g'.
Proof.
  assert (E : exists r, Softmax.loss_and_grad X.softmax3 X.X3 X.y3 = Ok r).
  { eexists. cbn. reflexivity. }
  assert (E' : exists r, Softmax.fast_loss_and_grad X.softmax3 X.X3 X.y3 = Ok r).
  { eexists. cbn. reflexivity. }
  destruct E as ([l g] & E). destruct E' as ([l' g'] & E').
  exists l, g, l', g'. split; [exact E|]. split; [exact E'|].
  exact (fast_gradient_equals_gradient _ _ _ _ _ _ _ E E').
Defined.

(** X9: whenever [Softmax.loss_and_grad] returns on a batch of shape
    (N, D), the gradient it returns is a vector of D entries, whatever the
    number of classes. *)
Theorem loss_and_grad_gradient_is_a_vector
  (self : Softmax.t) (N D : nat) (x : nat -> nat -> R) (y : list nat)
  (l : R) (g : ndarray) :
  Softmax.loss_and_grad self (Arr2 N D x) y = Ok (l, g) ->
  shape g = [D].
Proof. apply loss_and_grad_shape. Qed.

Lemma loss_and_grad_gradient_is_a_vector_witness :
  exists l g,
    Softmax.loss_and_grad X.softmax3 X.X3 X.y3 = Ok (l, g)
    /\ shape g = [2%nat].
Proof.
  assert (E : exists r, Softmax.loss_and_grad X.softmax3 X.X3 X.y3 = Ok r).
  { eexists. cbn. reflexivity. }
  destruct E as ([l g] & E). exists l, g. split; [exact E|].
  exact (loss_and_grad_gradient_is_a_vector _ _ _ _ _ _ _ E).
Defined.

(* ================================================================== *)
(** * Softmax.grad_check_sparse: what it prints, when it raises *)
(* ================================================================== *)

Lemma loss_value_ext (N D C : nat) (x w w' : nat -> nat -> R) (y : list nat) :
  length y = N -> Forall (fun l => (l < C)%nat) y ->
  (forall c d, (c < C)%nat -> (d < D)%nat -> w c d = w' c d) ->
  loss_value N D C x w y = loss_value N D C x w' y.
Proof.
  intros Hy Hl E. unfold loss_value. f_equal.
  assert (Hs : forall i c, (c < C)%nat -> Spec.score D w x i c = Spec.score D w' x i c).
  { intros i c Hc. unfold Spec.score. apply rsum_ext. intros d Hd.
    now rewrite (E c d Hc Hd). }
  apply rsum_ext. intros i Hi. apply rsum_ext. intros j Hj.
  assert (Hyj : (nth j y O < C)%nat).
  { rewrite Forall_forall in Hl. apply Hl, nth_In. lia. }
  rewrite (Hs i _ Hyj). do 2 f_equal.
  apply rsum_ext. intros c Hc. now rewrite (Hs j c Hc).
Qed.

Lemma perturbed_ext (w w' : nat -> nat -> R) (C D i j : nat) (delta : R) :
  (i < C)%nat -> (j < D)%nat ->
  (forall c d, (c < C)%nat -> (d < D)%nat -> w c d = w' c d) ->
  forall c d, (c < C)%nat -> (d < D)%nat ->
    perturbed w i j delta c d = perturbed w' i j delta c d.
Proof.
  intros Hi Hj E c d Hc Hd. unfold perturbed.
  destruct ((c =? i) && (d =? j))%nat; [now rewrite (E i j Hi Hj) | now apply E].
Qed.

Lemma grad_check_step_line (C D N : nat) (w0 w x g : nat -> nat -> R)
  (y : list nat) (h : R) (raw : nat -> nat) (out : list Softmax.check_line) :
  C <> O -> D <> O -> length y = N -> Forall (fun l => (l < C)%nat) y ->
  (forall c d, (c < C)%nat -> (d < D)%nat -> w c d = w0 c d) ->
  exists w' line,
    Softmax.grad_check_step (Arr2 N D x) y (Arr2 C D g) h raw
      ({| Softmax.W := Arr2 C D w |}, out)
    = Ok ({| Softmax.W := Arr2 C D w' |}, out ++ [line])
    /\ (forall c d, (c < C)%nat -> (d < D)%nat -> w' c d = w0 c d)
    /\ line_checks_entry N D C x w0 g y h line.
Proof.
  intros HC HD Hy Hl Hw. unfold Softmax.grad_check_step, randint.
  cbn [Softmax.W shape].
  replace (C =? 0)%nat with false by (symmetry; now apply Nat.eqb_neq).
  replace (D =? 0)%nat with false by (symmetry; now apply Nat.eqb_neq).
  cbn [Py.bind getitem setitem].
  pose proof (Nat.mod_upper_bound (raw 0%nat) C HC) as Hi.
  pose proof (Nat.mod_upper_bound (raw 1%nat) D HD) as Hj.
  set (i := (raw 0%nat mod C)%nat) in *. set (j := (raw 1%nat mod D)%nat) in *.
  assert (Hin : ((i <? C) && (j <? D))%nat = true).
  { apply andb_true_iff. split; now apply Nat.ltb_lt. }
  rewrite !Hin. cbn [Py.bind Softmax.W setitem].
  rewrite !Hin. cbn [Py.bind Softmax.W setitem].
  rewrite !(softmax_loss_value N D C x _ y Hy Hl). cbn [Py.bind].
  rewrite !Hin. cbn [Py.bind].
  do 2 eexists. split; [reflexivity|]. split.
  - intros c d Hc Hd. cbn beta.
    destruct ((c =? i) && (d =? j))%nat eqn:E.
    + apply andb_true_iff in E. destruct E as [Ec Ed].
      apply Nat.eqb_eq in Ec, Ed. subst c d. now apply Hw.
    + now apply Hw.
  - exists i, j. split; [exact Hi|]. split; [exact Hj|].
    cbn [Softmax.numerical Softmax.analytic Softmax.relative_error].
    split; [|split; [reflexivity | intros _; reflexivity]].
    unfold central_difference. f_equal.
    fold (loss_value N D C x
            (fun k l => if ((k =? i) && (l =? j))%nat then w i j + h else w k l) y).
    match goal with
    | |- _ - ?b = _ => 
        change b with
          (loss_value N D C x
             (fun k l => if ((k =? i) && (l =? j))%nat then w i j - h
                         else if ((k =? i) && (l =? j))%nat then w i j + h
                              else w k l) y)
    end.
    f_equal; apply loss_value_ext; try assumption; intros c d Hc Hd;
      unfold perturbed; destruct ((c =? i) && (d =? j))%nat;
      rewrite <- ?(Hw i j Hi Hj), <- ?(Hw c d Hc Hd); try reflexivity; lra.
Qed.

(** X10: on a weight matrix of shape (C, D) with at least one entry, a
    non-empty batch of shape (N, D) with N labels below C, a gradient of
    the shape of [W] and a step [h] that is not zero, [grad_check_sparse]
    returns and prints [num_checks] lines; each line gives, for an entry of
    the matrix, the central finite difference
    [(loss(W + h) - loss(W - h)) / (2 h)] of [Softmax.loss] in that entry,
    the gradient's entry, and their relative error. *)
Theorem grad_check_sparse_report
  (randint_raw : nat -> nat -> nat) (C D N : nat) (w x g : nat -> nat -> R)
  (y : list nat) (num_checks : nat) (h : R) :
  C <> O -> D <> O -> (0 < N)%nat -> h <> 0 ->
  length y = N -> Forall (fun l => (l < C)%nat) y ->
  exists self' out,
    Softmax.grad_check_sparse randint_raw {| Softmax.W := Arr2 C D w |}
      (Arr2 N D x) y (Arr2 C D g) num_checks h = Ok (self', out)
    /\ length out = num_checks
    /\ Forall (line_checks_entry N D C x w g y h) out.
Proof.
  intros HC HD _ _ Hy Hl. unfold Softmax.grad_check_sparse.
  assert (G : forall (checks : list nat) (w1 : nat -> nat -> R)
                (out : list Softmax.check_line),
    (forall c d, (c < C)%nat -> (d < D)%nat -> w1 c d = w c d) ->
    Forall (line_checks_entry N D C x w g y h) out ->
    exists self' out',
      for_each checks
        (fun i st => Softmax.grad_check_step (Arr2 N D x) y (Arr2 C D g) h
                       (randint_raw i) st)
        ({| Softmax.W := Arr2 C D w1 |}, out) = Ok (self', out')
      /\ length out' = (length out + length checks)%nat
      /\ Forall (line_checks_entry N D C x w g y h) out').
  { induction checks as [|i rest IH]; intros w1 out Hw Hout; cbn [for_each].
    - do 2 eexists. split; [reflexivity|]. split; [cbn; lia | exact Hout].
    - destruct (grad_check_step_line C D N w w1 x g y h (randint_raw i) out
                  HC HD Hy Hl Hw) as (w' & line & E & Hw' & Hline).
      rewrite E. cbn [Py.bind].
      destruct (IH w' (out ++ [line]) Hw') as (self' & out' & E' & Hlen & Hall).
      + apply Forall_app. split; [exact Hout | now constructor].
      + exists self', out'. split; [exact E'|]. split; [|exact Hall].
        rewrite Hlen, length_app. cbn. lia. }
  destruct (G (arange num_checks) w [] (fun _ _ _ _ => eq_refl) (Forall_nil _))
    as (self' & out & E & Hlen & Hall).
  exists self', out. split; [exact E|]. split; [|exact Hall].
  rewrite Hlen. unfold arange. now rewrite length_seq.
Qed.

Lemma grad_check_sparse_report_witness :
  exists self' out,
    Softmax.grad_check_sparse X.raw0 X.softmax3 X.X2 X.y2 (Arr2 3 2 X.x2) 4 1
    = Ok (self', out)
    /\ length out = 4%nat
    /\ Forall (line_checks_entry 2 2 3 X.x2 X.w3 X.x2 X.y2 1) out.
Proof.
  apply (grad_check_sparse_report X.raw0 3 2 2 X.w3 X.x2 X.x2 X.y2 4 1).
  - lia.
  - lia.
  - lia.
  - lra.
  - reflexivity.
  - repeat constructor.
Defined.

(** X11: the gradient [Softmax.loss_and_grad] returns cannot be checked:
    on a weight matrix with at least one entry and a batch on which
    [Softmax.loss] is defined, [grad_check_sparse] with that gradient and
    at least one check raises an IndexError, the gradient being a vector
    and the sampled index a pair. *)
Theorem grad_check_sparse_rejects_gradient_of_loss_and_grad
  (randint_raw : nat -> nat -> nat) (C D N : nat) (w x : nat -> nat -> R)
  (y : list nat) (l : R) (g : ndarray) (num_checks : nat) (h : R) :
  C <> O -> D <> O -> length y = N -> Forall (fun c => (c < C)%nat) y ->
  num_checks <> O ->
  Softmax.loss_and_grad {| Softmax.W := Arr2 C D w |} (Arr2 N D x) y = Ok (l, g) ->
  Softmax.grad_check_sparse randint_raw {| Softmax.W := Arr2 C D w |}
    (Arr2 N D x) y g num_checks h = Raise IndexError.
Proof.
  intros HC HD Hy Hl Hn E.
  pose proof (loss_and_grad_shape _ N D x y l g E) as Hs.
  destruct g as [s|n f|n m f]; try discriminate Hs.
  destruct num_checks as [|k]; [contradiction|].
  unfold Softmax.grad_check_sparse, arange. cbn [seq for_each].
  unfold Softmax.grad_check_step, randint.
  cbn [Softmax.W shape].
  replace (C =? 0)%nat with false by (symmetry; now apply Nat.eqb_neq).
  replace (D =? 0)%nat with false by (symmetry; now apply Nat.eqb_neq).
  cbn [Py.bind getitem setitem].
  assert (Hin : ((randint_raw 0 0 mod C <? C) && (randint_raw 0 1 mod D <? D))%nat
                = true).
  { apply andb_true_iff.
    split; apply Nat.ltb_lt; now apply Nat.mod_upper_bound. }
  rewrite !Hin. cbn [Py.bind Softmax.W setitem].
  rewrite !Hin. cbn [Py.bind Softmax.W setitem].
  rewrite !(softmax_loss_value N D C x _ y Hy Hl). cbn [Py.bind].
  rewrite !Hin. cbn [Py.bind]. reflexivity.
Qed.

Lemma grad_check_sparse_rejects_gradient_of_loss_and_grad_witness :
  exists l g,
    Softmax.loss_and_grad X.softmax3 X.X3 X.y3 = Ok (l, g)
    /\ Softmax.grad_check_sparse X.raw0 X.softmax3 X.X3 X.y3 g 2 1
       = Raise IndexError.
Proof.
  assert (E : exists r, Softmax.loss_and_grad X.softmax3 X.X3 X.y3 = Ok r).
  { eexists. cbn. reflexivity. }
  destruct E as ([l g] & E). exists l, g. split; [exact E|].
  apply (grad_check_sparse_rejects_gradient_of_loss_and_grad
           X.raw0 3 2 3 X.w3 X.x2 X.y3 l g 2 1).
  - lia.
  - lia.
  - reflexivity.
  - repeat constructor.
  - lia.
  - exact E.
Defined.

Lemma isub_pairs_arange_entries (N C : nat) (f : nat -> nat -> R)
  (y : list nat) (v : R) :
  length y = N -> Forall (fun l => (l < C)%nat) y ->
  exists g,
    isub_pairs (Arr2 N C f) (arange N) y v = Ok (Arr2 N C g) /\
    forall i j, (i < N)%nat -> (j < C)%nat ->
      g i j = if (j =? nth i y O)%nat then f i j - v else f i j.
Proof.
  intros Hy Hl. unfold isub_pairs.
  rewrite (index_pairs_arange N y Hy). cbn [Py.bind].
  rewrite (pairs_in_range N C y Hy Hl).
  eexists. split; [reflexivity|]. intros i j Hi Hj. cbn beta.
  replace (existsb (pair_eqb (i, j)) (map (fun k => (k, nth k y O)) (seq 0 N)))
    with (j =? nth i y O)%nat; [reflexivity|].
  apply eq_true_iff_eq. rewrite existsb_exists, Nat.eqb_eq. split.
  - intros ->. exists (i, nth i y O). split.
    + apply in_map_iff. exists i. split; [reflexivity|]. apply in_seq. lia.
    + unfold pair_eqb. cbn [fst snd]. now rewrite !Nat.eqb_refl.
  - intros (p & Hp & E). apply in_map_iff in Hp. destruct Hp as (k & <- & _).
    unfold pair_eqb in E. cbn [fst snd] in E.
    apply andb_true_iff in E. destruct E as [E1 E2].
    apply Nat.eqb_eq in E1, E2. now subst.
Qed.

Ltac loss_step_entries Hy Hl :=
  first
    [ match goal with
      | |- context [getitem_pairs (Arr2 ?n ?m ?f) (arange ?n) ?y] =>
          let g := fresh "picked" in
          let Eg := fresh "E" g in
          let Hg := fresh "H" g in
          destruct (getitem_pairs_arange n m f y Hy Hl) as (g & Eg & Hg);
          rewrite Eg; clear Eg; cbn [Py.bind]
      end
    | match goal with
      | |- context [isub_pairs (Arr2 ?n ?m ?f) (arange ?n) ?y ?v] =>
          let g := fresh "sg" in
          let Eg := fresh "E" g in
          let Hg := fresh "H" g in
          destruct (isub_pairs_arange_entries n m f y v Hy Hl) as (g & Eg & Hg);
          rewrite Eg; clear Eg; cbn [Py.bind]
      end
    | rewrite reshape2_column; cbn [Py.bind]
    | progress np_step ].

(** The gradients [TwoLayerNet.loss] returns, entry by entry. *)
Lemma loss_gradients (N D H C : nat) x w1 v1 w2 v2 (y : list nat) (reg : R) :
  length y = N -> Forall (fun l => (l < C)%nat) y ->
  exists l gW1 gb1 gW2 gb2,
    TwoLayerNet.loss (net D H C w1 v1 w2 v2) (Arr2 N D x) (Some y) reg
    = Ok (TwoLayerNet.LossGrads l (net D H C gW1 gb1 gW2 gb2))
    /\ (forall c, (c < C)%nat ->
          gb2 c = rsum N (fun i => net_dscores N D H C x w1 v1 w2 v2 y i c))
    /\ (forall c h, (c < C)%nat -> (h < H)%nat ->
          gW2 c h = reg * w2 c h
                    + rsum N (fun i => activation D x w1 v1 i h
                                       * net_dscores N D H C x w1 v1 w2 v2 y i c))
    /\ (forall h, (h < H)%nat ->
          gb1 h = rsum N (fun i => net_dhidden N D H C x w1 v1 w2 v2 y i h))
    /\ (forall h d, (h < H)%nat -> (d < D)%nat ->
          gW1 h d = reg * w1 h d
                    + rsum N (fun i => x i d
                                       * net_dhidden N D H C x w1 v1 w2 v2 y i h)).
Proof.
  intros Hy Hl. unfold TwoLayerNet.loss, net.
  repeat loss_step_entries Hy Hl.
  assert (HA : forall k h, (k < N)%nat -> (h < H)%nat ->
            Rmax 0 (a (bidx N k) (bidx H (bidx H h)) + v1 (bidx H (bidx H h)))
            = activation D x w1 v1 k h).
  { intros k h Hk Hh. rewrite (bidx_lt N k Hk), !(bidx_lt H h Hh). now subst a. }
  assert (HS : forall i c, (i < N)%nat -> (c < C)%nat ->
            a0 i c + v2 c = Spec.net_scores D H x w1 v1 w2 v2 i c).
  { intros i c Hi Hc. subst a0.
    unfold Spec.net_scores. f_equal. apply rsum_ext. intros h Hh.
    now rewrite (HA i h Hi Hh). }
  assert (Ha1 : forall i, (i < N)%nat ->
            a1 i = rsum C (fun c => exp (Spec.net_scores D H x w1 v1 w2 v2 i c))).
  { intros i Hi. subst a1. apply rsum_ext. intros c Hc.
    now rewrite (bidx_lt C c Hc), (HS i c Hi Hc). }
  assert (HdS : forall i c, (i < N)%nat -> (c < C)%nat ->
            sg i c / INR N = net_dscores N D H C x w1 v1 w2 v2 y i c).
  { intros i c Hi Hc. rewrite (Hsg i c Hi Hc).
    unfold net_dscores, dscores, softmax_prob.
    rewrite (bidx_lt N i Hi), !(bidx_lt C c Hc).
    change (bidx 1 c) with O. rewrite Nat.mul_1_r, Nat.add_0_r.
    rewrite (HS i c Hi Hc), (Ha1 i Hi).
    destruct (Nat.eqb c (nth i y O)); f_equal; lra. }
  assert (HdA : forall i h, (i < N)%nat -> (h < H)%nat ->
            a4 i h = net_dhidden N D H C x w1 v1 w2 v2 y i h).
  { intros i h Hi Hh. subst a4. cbn beta. rewrite (HA i h Hi Hh).
    unfold net_dhidden, dhidden.
    destruct (Rle_dec (activation D x w1 v1 i h) 0); [reflexivity|].
    apply rsum_ext. intros c Hc. now rewrite (HdS i c Hi Hc). }
  do 5 eexists. split; [reflexivity|]. split; [|split; [|split]].
  - intros c Hc. subst a2. apply rsum_ext. intros i Hi. now apply HdS.
  - intros c h Hc Hh. rewrite (bidx_lt C c Hc), (bidx_lt H h Hh). f_equal.
    subst a3. apply rsum_ext. intros i Hi.
    now rewrite (HA i h Hi Hh), (HdS i c Hi Hc).
  - intros h Hh. apply rsum_ext. intros i Hi. now apply HdA.
  - intros h d Hh Hd. rewrite (bidx_lt H h Hh), (bidx_lt D d Hd). f_equal.
    subst a5. apply rsum_ext. intros i Hi. now rewrite (HdA i h Hi Hh).
Qed.

Lemma cross_entropy_ext (N C : nat) (s s' : nat -> nat -> R) (y : list nat) :
  length y = N -> Forall (fun l => (l < C)%nat) y ->
  (forall i c, (i < N)%nat -> (c < C)%nat -> s i c = s' i c) ->
  cross_entropy N C s y = cross_entropy N C s' y.
Proof.
  intros Hy Hl E. unfold cross_entropy. f_equal.
  apply rsum_ext. intros i Hi.
  assert (Hyi : (nth i y O < C)%nat).
  { rewrite Forall_forall in Hl. apply Hl, nth_In. lia. }
  rewrite (E i _ Hi Hyi). do 2 f_equal.
  apply rsum_ext. intros c Hc. now rewrite (E i c Hi Hc).
Qed.

(* ================================================================== *)
(** * TwoLayerNet.loss with labels: value, gradients, errors *)
(* ================================================================== *)

(** X12: on a non-empty batch of shape (N, D) with N labels below C,
    [TwoLayerNet.loss] returns the mean cross-entropy of the labels under
    the scores [max(0, X·W1ᵗ + b1)·W2ᵗ + b2] plus
    [0.5 * reg * (sum(W1²) + sum(W2²))], and gradients of the shapes of
    the four parameters. *)
Theorem two_layer_loss_value
  (N D H C : nat) (x w1 : nat -> nat -> R) (v1 : nat -> R)
  (w2 : nat -> nat -> R) (v2 : nat -> R) (y : list nat) (reg : R) :
  (0 < N)%nat -> length y = N -> Forall (fun l => (l < C)%nat) y ->
  exists grads,
    TwoLayerNet.loss (net D H C w1 v1 w2 v2) (Arr2 N D x) (Some y) reg
    = Ok (TwoLayerNet.LossGrads
            (cross_entropy N C (Spec.net_scores D H x w1 v1 w2 v2) y
             + 0.5 * reg * (sum_squares H D w1 + sum_squares C H w2))
            grads)
    /\ has_shapes D H C grads.
Proof.
  intros _ Hy Hl.
  destruct (loss_with_labels N D H C x w1 v1 w2 v2 y reg Hy Hl)
    as (gW1 & gb1 & gW2 & gb2 & E).
  exists (net D H C gW1 gb1 gW2 gb2). split.
  - rewrite E. do 3 f_equal. apply cross_entropy_ext; try assumption.
    intros i c Hi Hc. now apply forward_entry_spec.
  - now exists gW1, gb1, gW2, gb2.
Qed.

Lemma two_layer_loss_value_witness :
  exists grads,
    TwoLayerNet.loss (net 2 4 3 X.w3 (fun h => INR h) X.x2 (fun _ => 1))
      X.X2 (Some X.y2) 2
    = Ok (TwoLayerNet.LossGrads
            (cross_entropy 2 3
               (Spec.net_scores 2 4 X.x2 X.w3 (fun h => INR h) X.x2 (fun _ => 1))
               X.y2
             + 0.5 * 2 * (sum_squares 4 2 X.w3 + sum_squares 3 4 X.x2))
            grads)
    /\ has_shapes 2 4 3 grads.
Proof.
  apply (two_layer_loss_value 2 2 4 3 X.x2 X.w3 (fun h => INR h) X.x2
           (fun _ => 1) X.y2 2).
  - lia.
  - reflexivity.
  - repeat constructor.
Defined.

(** X13: on a non-empty batch with labels below C, the gradients
    [TwoLayerNet.loss] returns are those of back-propagation.  With [dS = (P - Y_onehot) / N], [A] the hidden
    activations and [dA = dS·W2] zeroed where [A <= 0]:
    [grads['b2'] = sum_i dS_i], [grads['W2'] = reg·W2 + dSᵗ·A],
    [grads['b1'] = sum_i dA_i], [grads['W1'] = reg·W1 + dAᵗ·X]. *)
Theorem two_layer_gradients_are_backpropagation
  (N D H C : nat) (x w1 : nat -> nat -> R) (v1 : nat -> R)
  (w2 : nat -> nat -> R) (v2 : nat -> R) (y : list nat) (reg : R) :
  (0 < N)%nat -> length y = N -> Forall (fun l => (l < C)%nat) y ->
  exists l gW1 gb1 gW2 gb2,
    TwoLayerNet.loss (net D H C w1 v1 w2 v2) (Arr2 N D x) (Some y) reg
    = Ok (TwoLayerNet.LossGrads l (net D H C gW1 gb1 gW2 gb2))
    /\ (forall c, (c < C)%nat ->
          gb2 c = rsum N (fun i => net_dscores N D H C x w1 v1 w2 v2 y i c))
    /\ (forall c h, (c < C)%nat -> (h < H)%nat ->
          gW2 c h = reg * w2 c h
                    + rsum N (fun i => activation D x w1 v1 i h
                                       * net_dscores N D H C x w1 v1 w2 v2 y i c))
    /\ (forall h, (h < H)%nat ->
          gb1 h = rsum N (fun i => net_dhidden N D H C x w1 v1 w2 v2 y i h))
    /\ (forall h d, (h < H)%nat -> (d < D)%nat ->
          gW1 h d = reg * w1 h d
                    + rsum N (fun i => x i d
                                       * net_dhidden N D H C x w1 v1 w2 v2 y i h)).
Proof. intros _. apply loss_gradients. Qed.

Lemma two_layer_gradients_are_backpropagation_witness :
  exists l gW1 gb1 gW2 gb2,
    TwoLayerNet.loss (net 2 4 3 X.w3 (fun h => INR h) X.x2 (fun _ => 1))
      X.X2 (Some X.y2) 2
    = Ok (TwoLayerNet.LossGrads l (net 2 4 3 gW1 gb1 gW2 gb2))
    /\ (forall c, (c < 3)%nat ->
          gb2 c = rsum 2 (fun i =>
                    net_dscores 2 2 4 3 X.x2 X.w3 (fun h => INR h) X.x2
                      (fun _ => 1) X.y2 i c))
    /\ (forall c h, (c < 3)%nat -> (h < 4)%nat ->
          gW2 c h = 2 * X.x2 c h
                    + rsum 2 (fun i =>
                        activation 2 X.x2 X.w3 (fun h => INR h) i h
                        * net_dscores 2 2 4 3 X.x2 X.w3 (fun h => INR h) X.x2
                            (fun _ => 1) X.y2 i c))
    /\ (forall h, (h < 4)%nat ->
          gb1 h = rsum 2 (fun i =>
                    net_dhidden 2 2 4 3 X.x2 X.w3 (fun h => INR h) X.x2
                      (fun _ => 1) X.y2 i h))
    /\ (forall h d, (h < 4)%nat -> (d < 2)%nat ->
          gW1 h d = 2 * X.w3 h d
                    + rsum 2 (fun i =>
                        X.x2 i d
                        * net_dhidden 2 2 4 3 X.x2 X.w3 (fun h => INR h) X.x2
                            (fun _ => 1) X.y2 i h)).
Proof.
  apply (two_layer_gradients_are_backpropagation 2 2 4 3 X.x2 X.w3
           (fun h => INR h) X.x2 (fun _ => 1) X.y2 2).
  - lia.
  - reflexivity.
  - repeat constructor.
Defined.

Lemma pairs_out_of_range (N C : nat) (y : list nat) (l : nat) :
  length y = N -> In l y -> (C <= l)%nat ->
  forallb (pair_in_range N C) (map (fun k => (k, nth k y O)) (seq 0 N)) = false.
Proof.
  intros Hy Hin Hle.
  destruct (forallb _ _) eqn:E; [|reflexivity].
  rewrite forallb_forall in E.
  destruct (In_nth y l O Hin) as (k & Hk & Hnth).
  specialize (E (k, nth k y O)).
  unfold pair_in_range in E. cbn [fst snd] in E.
  rewrite Hnth in E.
  assert (Hf : ((k <? N) && (l <? C))%nat = true).
  { apply E. apply in_map_iff. exists k. split; [now rewrite Hnth|].
    apply in_seq. lia. }
  apply andb_true_iff in Hf. destruct Hf as [_ Hf].
  apply Nat.ltb_lt in Hf. lia.
Qed.

(** X15: a label that is not below the number of classes makes
    [TwoLayerNet.loss] raise an IndexError. *)
Theorem two_layer_loss_label_out_of_range
  (N D H C : nat) (x w1 : nat -> nat -> R) (v1 : nat -> R)
  (w2 : nat -> nat -> R) (v2 : nat -> R) (y : list nat) (reg : R) (l : nat) :
  length y = N -> In l y -> (C <= l)%nat ->
  TwoLayerNet.loss (net D H C w1 v1 w2 v2) (Arr2 N D x) (Some y) reg
  = Raise IndexError.
Proof.
  intros Hy Hin Hle. unfold TwoLayerNet.loss, net.
  repeat (progress np_step).
  unfold getitem_pairs.
  rewrite (index_pairs_arange N y Hy). cbn [Py.bind].
  now rewrite (pairs_out_of_range N C y l Hy Hin Hle).
Qed.

Lemma two_layer_loss_label_out_of_range_witness :
  TwoLayerNet.loss (net 2 4 3 X.w3 (fun h => INR h) X.x2 (fun _ => 1))
    X.X2 (Some [1%nat; 3%nat]) 0
  = Raise IndexError.
Proof.
  apply (two_layer_loss_label_out_of_range 2 2 4 3 X.x2 X.w3 (fun h => INR h)
           X.x2 (fun _ => 1) [1%nat; 3%nat] 0 3).
  - reflexivity.
  - cbn. tauto.
  - lia.
Defined.

(** X16: when the rows of [X] do not have the input size of the network,
    [TwoLayerNet.loss], with or without labels, and [TwoLayerNet.predict]
    raise a ValueError. *)
Theorem two_layer_feature_count_mismatch
  (N D D' H C : nat) (x w1 : nat -> nat -> R) (v1 : nat -> R)
  (w2 : nat -> nat -> R) (v2 : nat -> R) (y : option (list nat)) (reg : R) :
  D' <> D ->
  TwoLayerNet.loss (net D H C w1 v1 w2 v2) (Arr2 N D' x) y reg = Raise ValueError
  /\ TwoLayerNet.predict (net D H C w1 v1 w2 v2) (Arr2 N D' x) = Raise ValueError.
Proof.
  intro Hd.
  assert (E : (D' =? D)%nat = false) by now apply Nat.eqb_neq.
  unfold TwoLayerNet.loss, TwoLayerNet.predict, net.
  cbn [shape2 Py.bind TwoLayerNet.W1 T dot]. rewrite E. cbn [Py.bind].
  split; reflexivity.
Qed.

Lemma two_layer_feature_count_mismatch_witness :
  TwoLayerNet.loss (net 2 4 3 X.w3 (fun h => INR h) X.x2 (fun _ => 1))
    (Arr2 2 3 X.x2) (Some X.y2) 0 = Raise ValueError
  /\ TwoLayerNet.predict (net 2 4 3 X.w3 (fun h => INR h) X.x2 (fun _ => 1))
       (Arr2 2 3 X.x2) = Raise ValueError.
Proof.
  apply (two_layer_feature_count_mismatch 2 2 3 4 3 X.x2 X.w3 (fun h => INR h)
           X.x2 (fun _ => 1) (Some X.y2) 0).
  lia.
Defined.

(* ================================================================== *)
(** * TwoLayerNet.predict *)
(* ================================================================== *)

Lemma argmax_upto_le (f : nat -> R) (k : nat) : (argmax_upto f k <= k)%nat.
Proof.
  induction k as [|k IH]; cbn [argmax_upto]; [lia|].
  destruct (Rlt_dec _ _); lia.
Qed.

Lemma argmax_upto_max (f : nat -> R) (k j : nat) :
  (j <= k)%nat -> f j <= f (argmax_upto f k).
Proof.
  induction k as [|k IH]; intro Hj; cbn [argmax_upto].
  - replace j with O by lia. lra.
  - destruct (Rlt_dec (f (argmax_upto f k)) (f (S k))) as [Hlt|Hge].
    + destruct (Nat.eq_dec j (S k)) as [->|Hne]; [lra|].
      specialize (IH ltac:(lia)). lra.
    + destruct (Nat.eq_dec j (S k)) as [->|Hne]; [lra|].
      apply IH. lia.
Qed.

Lemma argmax_upto_first (f : nat -> R) (k j : nat) :
  (j < argmax_upto f k)%nat -> f j < f (argmax_upto f k).
Proof.
  induction k as [|k IH]; cbn [argmax_upto]; [lia|].
  destruct (Rlt_dec (f (argmax_upto f k)) (f (S k))) as [Hlt|Hge]; intro Hj.
  - pose proof (argmax_upto_max f k j) as Hm.
    pose proof (argmax_upto_le f k). specialize (Hm ltac:(lia)). lra.
  - now apply IH.
Qed.

(** X17: on an input of shape (N, D) and parameters of the documented
    shapes with at least one class, [TwoLayerNet.predict] returns N labels;
    the label of a row is below C, no class has a higher score in that row,
    and every class before it has a strictly lower score. *)
Theorem two_layer_predict_labels
  (N D H C : nat) (x w1 : nat -> nat -> R) (v1 : nat -> R)
  (w2 : nat -> nat -> R) (v2 : nat -> R) :
  C <> O ->
  exists p,
    TwoLayerNet.predict (net D H C w1 v1 w2 v2) (Arr2 N D x) = Ok p
    /\ length p = N
    /\ forall i, (i < N)%nat ->
         (nth i p O < C)%nat
         /\ (forall c, (c < C)%nat ->
               Spec.net_scores D H x w1 v1 w2 v2 i c
               <= Spec.net_scores D H x w1 v1 w2 v2 i (nth i p O))
         /\ (forall c, (c < nth i p O)%nat ->
               Spec.net_scores D H x w1 v1 w2 v2 i c
               < Spec.net_scores D H x w1 v1 w2 v2 i (nth i p O)).
Proof.
  intro HC. rewrite (predict_labels N D H C x w1 v1 w2 v2 HC).
  eexists. split; [reflexivity|]. split; [now rewrite length_map, length_seq|].
  intros i Hi. rewrite nth_map_seq by exact Hi.
  set (f := forward_entry N D H C x w1 v1 w2 v2 i).
  pose proof (argmax_upto_le f (C - 1)) as Hle.
  assert (Hlt : (argmax_upto f (C - 1) < C)%nat) by lia.
  split; [exact Hlt|]. split.
  - intros c Hc.
    rewrite <- !(forward_entry_spec N D H C x w1 v1 w2 v2 i) by assumption.
    apply (argmax_upto_max f). lia.
  - intros c Hc.
    rewrite <- !(forward_entry_spec N D H C x w1 v1 w2 v2 i) by (assumption || lia).
    now apply (argmax_upto_first f).
Qed.

Lemma two_layer_predict_labels_witness :
  exists p,
    TwoLayerNet.predict (net 2 4 3 X.w3 (fun h => INR h) X.x2 (fun _ => 1)) X.X2
    = Ok p
    /\ length p = 2%nat
    /\ forall i, (i < 2)%nat ->
         (nth i p O < 3)%nat
         /\ (forall c, (c < 3)%nat ->
               Spec.net_scores 2 4 X.x2 X.w3 (fun h => INR h) X.x2 (fun _ => 1) i c
               <= Spec.net_scores 2 4 X.x2 X.w3 (fun h => INR h) X.x2 (fun _ => 1)
                    i (nth i p O))
         /\ (forall c, (c < nth i p O)%nat ->
               Spec.net_scores 2 4 X.x2 X.w3 (fun h => INR h) X.x2 (fun _ => 1) i c
               < Spec.net_scores 2 4 X.x2 X.w3 (fun h => INR h) X.x2 (fun _ => 1)
                   i (nth i p O)).
Proof.
  apply (two_layer_predict_labels 2 2 4 3 X.x2 X.w3 (fun h => INR h) X.x2
           (fun _ => 1)).
  lia.
Defined.

(* ================================================================== *)
(** * Softmax.train: what training does to the weights *)
(* ================================================================== *)

Lemma softmax_train_step_update (C D N : nat) (x w : nat -> nat -> R)
  (y : list nat) (lr : R) (batch_size it : nat) (hist : list R) :
  C <> O -> length y = N ->
  exists l g,
    Softmax.train_step (Arr2 N D x) y lr batch_size it
      ({| Softmax.W := Arr2 C D w |}, hist)
    = Ok ({| Softmax.W := Arr2 C D (fun i j => w i (bidx D j) - lr * g (bidx D j)) |},
          hist ++ [l]).
Proof.
  intros HC Hy. unfold Softmax.train_step. cbn [slice_rows Py.bind].
  destruct (fast_loss_and_grad_returns C D _ w
              (fun i j => x (Nat.min (it * batch_size) N + i)%nat j)
              (slice_labels y (it * batch_size) (it * batch_size + batch_size))
              HC (slice_labels_length y N _ _ Hy)) as (l & g & E).
  rewrite E. cbn [Py.bind Softmax.W map1 map2]. rewrite bdim_same.
  cbn [Py.bind]. exists l, g. reflexivity.
Qed.

Lemma softmax_train_loop_updates (C D N : nat) (x : nat -> nat -> R)
  (y : list nat) (lr : R) (batch_size : nat) (its : list nat) :
  C <> O -> length y = N ->
  forall (w : nat -> nat -> R) (hist : list R),
    exists w' hist' gs,
      for_each its (Softmax.train_step (Arr2 N D x) y lr batch_size)
        ({| Softmax.W := Arr2 C D w |}, hist)
      = Ok ({| Softmax.W := Arr2 C D w' |}, hist')
      /\ length hist' = (length hist + length its)%nat
      /\ length gs = length its
      /\ (forall c d, (d < D)%nat ->
            w' c d = fold_left (fun acc g => acc - lr * g d) gs (w c d)).
Proof.
  intros HC Hy. induction its as [|it rest IH]; intros w hist; cbn [for_each].
  - exists w, hist, []. cbn [length fold_left]. repeat split. lia.
  - destruct (softmax_train_step_update C D N x w y lr batch_size it hist HC Hy)
      as (l & g & E).
    rewrite E. cbn [Py.bind].
    destruct (IH (fun i j => w i (bidx D j) - lr * g (bidx D j)) (hist ++ [l]))
      as (w' & hist' & gs & E' & Hh & Hg & Hw).
    exists w', hist', (g :: gs). split; [exact E'|].
    split; [rewrite Hh, length_app; cbn [length]; lia|].
    split; [cbn [length]; now rewrite Hg|].
    intros c d Hd. rewrite (Hw c d Hd). cbn [fold_left].
    now rewrite (bidx_lt D d Hd).
Qed.

(** X18: on a non-empty training set whose largest label is [m], with a
    positive batch size and every batch starting inside the training set,
    [Softmax.train] returns weights of shape (m + 1, D) and one loss per
    iteration, and there is one vector [g] of [D] entries per iteration,
    the same for every class, such that the entry [(c, d)] of the weights
    is the entry of [init_weights], [normal c d * 0.0001], from which
    [learning_rate * g[d]] has been subtracted, iteration after
    iteration. *)
Theorem softmax_train_subtracts_one_vector_from_every_row
  (normal : nat -> nat -> R) (N D m : nat) (x : nat -> nat -> R) (y : list nat)
  (lr : R) (num_iters batch_size : nat) :
  (0 < N)%nat -> length y = N -> max_label y = Ok m ->
  batch_size <> O -> ((num_iters - 1) * batch_size < N)%nat ->
  exists w' hist gs,
    Softmax.train normal (Arr2 N D x) y lr num_iters batch_size
    = Ok ({| Softmax.W := Arr2 (m + 1) D w' |}, hist)
    /\ length hist = num_iters
    /\ length gs = num_iters
    /\ forall c d, (c <= m)%nat -> (d < D)%nat ->
         w' c d
         = fold_left (fun acc g => acc - lr * g d) gs (normal c d * 0.0001).
Proof.
  intros HN Hy Hm _ _. unfold Softmax.train. rewrite Hm.
  cbn [shape2 shape_at shape nth_error Py.bind].
  unfold Softmax.init_weights. cbn [fst snd map1].
  destruct (softmax_train_loop_updates (m + 1) D N x y lr batch_size
              (arange num_iters) ltac:(lia) Hy
              (fun i j => normal i j * 0.0001) [])
    as (w' & hist' & gs & E & Hh & Hg & Hw).
  rewrite E. exists w', hist', gs. split; [reflexivity|].
  unfold arange in Hh, Hg. rewrite length_seq in Hh, Hg.
  split; [exact Hh|]. split; [exact Hg|].
  intros c d _ Hd. exact (Hw c d Hd).
Qed.

Lemma softmax_train_subtracts_one_vector_from_every_row_witness :
  exists w' hist gs,
    Softmax.train X.w3 X.X3 X.y3 1 2 2
    = Ok ({| Softmax.W := Arr2 (2 + 1) 2 w' |}, hist)
    /\ length hist = 2%nat
    /\ length gs = 2%nat
    /\ forall c d, (c <= 2)%nat -> (d < 2)%nat ->
         w' c d
         = fold_left (fun acc g => acc - 1 * g d) gs (X.w3 c d * 0.0001).
Proof.
  apply (softmax_train_subtracts_one_vector_from_every_row
           X.w3 3 2 2 X.x2 X.y3 1 2 2).
  - lia.
  - reflexivity.
  - reflexivity.
  - lia.
  - cbn. lia.
Defined.

(** X19: [Softmax.train] raises a ValueError on an empty label array (an
    empty training set), and on a training set that is not a matrix. *)
Theorem softmax_train_empty_training_set
  (normal : nat -> nat -> R) (N D n : nat) (x : nat -> nat -> R)
  (f : nat -> R) (y : list nat) (lr : R) (num_iters batch_size : nat) :
  Softmax.train normal (Arr2 N D x) [] lr num_iters batch_size
  = Raise ValueError
  /\ Softmax.train normal (Arr1 n f) y lr num_iters batch_size
     = Raise ValueError.
Proof. split; reflexivity. Qed.

(* ================================================================== *)
(** * TwoLayerNet.train: shapes, accuracies, the empty training set *)
(* ================================================================== *)

Lemma init_has_shapes (randn1 randn2 : nat -> nat -> R) (D H C : nat) (std : R) :
  has_shapes D H C (TwoLayerNet.init randn1 randn2 D H C std).
Proof.
  unfold has_shapes, TwoLayerNet.init, net. cbn [map1].
  do 4 eexists. reflexivity.
Qed.

(** X20: a network built by the constructor for [D] features, [H] hidden
    units and [C] classes has parameters of the shapes (H, D), (H), (C, H),
    (C); and on a non-empty training set of well-shaped data, with a
    positive batch size, [TwoLayerNet.train] started from parameters of
    these shapes returns parameters of the same shapes. *)
Theorem two_layer_train_keeps_shapes
  (randn1 randn2 : nat -> nat -> R) (std : R)
  (raw : nat -> nat -> nat) (N D H C Nv : nat)
  (x xv : nat -> nat -> R) (y y_val : list nat) (self : TwoLayerNet.params)
  (lr decay reg : R) (num_iters batch_size : nat) :
  N <> O -> length y = N -> Forall (fun l => (l < C)%nat) y ->
  length y_val = Nv -> batch_size <> O -> has_shapes D H C self ->
  has_shapes D H C (TwoLayerNet.init randn1 randn2 D H C std)
  /\ exists self' hist,
       TwoLayerNet.train raw self (Arr2 N D x) y (Arr2 Nv D xv) y_val
         lr decay reg num_iters batch_size = Ok (self', hist)
       /\ has_shapes D H C self'.
Proof.
  intros HN Hy Hl Hyv HB Hself. split; [apply init_has_shapes|].
  destruct (net_train_returns raw N D H C Nv x xv y y_val self lr decay reg
              num_iters batch_size HN Hy Hl Hyv Hself HB)
    as (self' & hist & E & Hs & _).
  now exists self', hist.
Qed.

Lemma two_layer_train_keeps_shapes_witness :
  has_shapes 2 4 3 (TwoLayerNet.init X.x2 X.w3 2 4 3 1)
  /\ exists self' hist,
       TwoLayerNet.train X.raw0 (TwoLayerNet.init X.x2 X.w3 2 4 3 1)
         X.X3 X.y3 X.X2 X.y2 1 1 0 5 2 = Ok (self', hist)
       /\ has_shapes 2 4 3 self'.
Proof.
  apply (two_layer_train_keeps_shapes X.x2 X.w3 1 X.raw0 3 2 4 3 2
           X.x2 X.x2 X.y3 X.y2 (TwoLayerNet.init X.x2 X.w3 2 4 3 1) 1 1 0 5 2).
  - lia.
  - reflexivity.
  - repeat constructor.
  - reflexivity.
  - lia.
  - apply init_has_shapes.
Defined.

Lemma epoch_boundary_zero (q : Q) : TwoLayerNet.epoch_boundary 0 q = true.
Proof.
  unfold TwoLayerNet.epoch_boundary, Py.mod_. apply Qeq_bool_iff.
  cbn [Z.of_nat].
  rewrite (Qfloor_comp (inject_Z 0 / q) (inject_Z 0)).
  - rewrite Qfloor_Z. unfold Qeq. cbn. lia.
  - unfold Qdiv. change (inject_Z 0) with 0%Q. ring.
Qed.

(** X21: on a non-empty training set of well-shaped data, with a positive
    batch size, the two accuracy histories [TwoLayerNet.train] returns have
    the same length, at most [num_iters]; when there is at least one
    iteration they are not empty, the accuracies being recorded at
    iteration 0. *)
Theorem two_layer_accuracy_history_lengths
  (raw : nat -> nat -> nat) (N D H C Nv : nat)
  (x xv : nat -> nat -> R) (y y_val : list nat) (self : TwoLayerNet.params)
  (lr decay reg : R) (num_iters batch_size : nat) :
  N <> O -> length y = N -> Forall (fun l => (l < C)%nat) y ->
  length y_val = Nv -> has_shapes D H C self -> batch_size <> O ->
  exists self' hist,
    TwoLayerNet.train raw self (Arr2 N D x) y (Arr2 Nv D xv) y_val
      lr decay reg num_iters batch_size = Ok (self', hist)
    /\ length (TwoLayerNet.train_acc_history hist)
       = length (TwoLayerNet.val_acc_history hist)
    /\ (length (TwoLayerNet.train_acc_history hist) <= num_iters)%nat
    /\ (num_iters <> O -> (1 <= length (TwoLayerNet.train_acc_history hist))%nat).
Proof.
  intros HN Hy Hl Hyv Hself HB.
  destruct (net_train_returns raw N D H C Nv x xv y y_val self lr decay reg
              num_iters batch_size HN Hy Hl Hyv Hself HB)
    as (self' & hist & E & _ & _ & Ht & Hv).
  exists self', hist. split; [exact E|]. rewrite Ht, Hv.
  split; [reflexivity|]. unfold epoch_boundaries, arange. split.
  - etransitivity; [apply filter_length_le|]. now rewrite length_seq.
  - intro Hn. destruct num_iters as [|n]; [contradiction|].
    cbn [seq filter]. rewrite epoch_boundary_zero. cbn [length]. lia.
Qed.

Lemma two_layer_accuracy_history_lengths_witness :
  exists self' hist,
    TwoLayerNet.train X.raw0 (TwoLayerNet.init X.x2 X.w3 2 4 3 1)
      X.X3 X.y3 X.X2 X.y2 1 1 0 5 2 = Ok (self', hist)
    /\ length (TwoLayerNet.train_acc_history hist)
       = length (TwoLayerNet.val_acc_history hist)
    /\ (length (TwoLayerNet.train_acc_history hist) <= 5)%nat
    /\ (5%nat <> O -> (1 <= length (TwoLayerNet.train_acc_history hist))%nat).
Proof.
  apply (two_layer_accuracy_history_lengths X.raw0 3 2 4 3 2
           X.x2 X.x2 X.y3 X.y2 (TwoLayerNet.init X.x2 X.w3 2 4 3 1) 1 1 0 5 2).
  - lia.
  - reflexivity.
  - repeat constructor.
  - reflexivity.
  - apply init_has_shapes.
  - lia.
Defined.

(** X22: asked for no iteration, [TwoLayerNet.train] with a positive batch
    size returns the parameters it was given and three empty histories;
    asked for at least one iteration on a training set without rows, it
    raises a ValueError, there being no row for [np.random.choice] to
    draw. *)
Theorem two_layer_train_degenerate_runs
  (raw : nat -> nat -> nat) (N D Nv : nat) (x xv : nat -> nat -> R)
  (y y_val : list nat) (self : TwoLayerNet.params) (lr decay reg : R)
  (n b : nat) :
  TwoLayerNet.train raw self (Arr2 N D x) y (Arr2 Nv D xv) y_val
    lr decay reg 0 (S b)
  = Ok (self, {| TwoLayerNet.loss_history := [];
                 TwoLayerNet.train_acc_history := [];
                 TwoLayerNet.val_acc_history := [] |})
  /\ TwoLayerNet.train raw self (Arr2 0 D x) y (Arr2 Nv D xv) y_val
       lr decay reg (S n) (S b) = Raise ValueError.
Proof. split; reflexivity. Qed.

Lemma rsum_le_count (n : nat) (f : nat -> R) :
  (forall i, (i < n)%nat -> 0 <= f i <= 1) -> 0 <= rsum n f <= INR n.
Proof.
  induction n as [|n IH]; intro Hf.
  - cbn. lra.
  - cbn [rsum]. rewrite S_INR.
    specialize (IH ltac:(intros i Hi; apply Hf; lia)).
    specialize (Hf n ltac:(lia)). lra.
Qed.

(** The share of positions where two label arrays of one positive length
    agree is a fraction. *)
Lemma eq_labels_fraction (a b : list nat) :
  length a = length b -> length a <> O ->
  exists hit, eq_labels a b = Ok hit /\ is_fraction (mean hit).
Proof.
  intros E Ha. unfold eq_labels. rewrite E, bdim_same. cbn [Py.bind].
  eexists. split; [reflexivity|].
  unfold is_fraction, mean. cbn [Np.sum size].
  assert (Hpos : 0 < INR (length b)) by (apply lt_0_INR; lia).
  match goal with
  | |- 0 <= rsum ?n ?f / _ <= 1 =>
      pose proof (rsum_le_count n f) as Hs
  end.
  cbn beta in Hs.
  destruct Hs as [H0 H1].
  { intros i _. destruct (Nat.eqb _ _); lra. }
  split.
  - apply Rmult_le_pos; [exact H0 | left; now apply Rinv_0_lt_compat].
  - apply (Rmult_le_reg_r (INR (length b))); [exact Hpos|].
    unfold Rdiv. rewrite Rmult_assoc, Rinv_l by lra. lra.
Qed.

Section TrainAccuracies.

Variables N D H C Nv : nat.
Variables (x xv : nat -> nat -> R) (y y_val : list nat).
Variables (decay reg : R) (batch_size : nat) (ipe : Q).
Variable raw : nat -> nat -> nat.

Hypothesis HN : N <> O.
Hypothesis Hy : length y = N.
Hypothesis Hl : Forall (fun l => (l < C)%nat) y.
Hypothesis Hyv : length y_val = Nv.
Hypothesis HB : batch_size <> O.
Hypothesis HNv : Nv <> O.

Lemma net_train_step_fractions (it : nat) (st : TwoLayerNet.train_state) :
  has_shapes D H C (TwoLayerNet.self_params st) ->
  Forall is_fraction (TwoLayerNet.train_acc_history (TwoLayerNet.history st)) ->
  Forall is_fraction (TwoLayerNet.val_acc_history (TwoLayerNet.history st)) ->
  exists st',
    TwoLayerNet.train_step (Arr2 N D x) y (Arr2 Nv D xv) y_val decay reg
      N batch_size ipe raw it st = Ok st' /\
    has_shapes D H C (TwoLayerNet.self_params st') /\
    Forall is_fraction (TwoLayerNet.train_acc_history (TwoLayerNet.history st')) /\
    Forall is_fraction (TwoLayerNet.val_acc_history (TwoLayerNet.history st')).
Proof.
  intros (w1 & v1 & w2 & v2 & Ep) Ht Hv.
  pose proof (classes_nonempty N C Nv y y_val HN Hy Hl Hyv) as HC.
  unfold TwoLayerNet.train_step. rewrite Ep.
  destruct (random_choice_returns (raw it) N batch_size HN)
    as (idxs & Ec & Hlen & Hin).
  rewrite Ec. cbn [Py.bind].
  rewrite (take_rows_returns N D x idxs Hin). cbn [Py.bind].
  destruct (take_labels_returns N C y idxs Hy Hl Hin) as (yb & Eyb & Hyb & Hlb).
  rewrite Eyb. cbn [Py.bind].
  destruct (loss_with_labels (length idxs) D H C
              (fun i j => x (nth i idxs O) j) w1 v1 w2 v2 yb reg Hyb Hlb)
    as (gW1 & gb1 & gW2 & gb2 & El).
  rewrite El. cbn [Py.bind]. unfold net.
  cbn [TwoLayerNet.W1 TwoLayerNet.b1 TwoLayerNet.W2 TwoLayerNet.b2 map1].
  repeat
    match goal with
    | |- context [imap2 ?op (Arr2 ?n ?m ?f) (Arr2 ?n ?m ?g)] =>
        let r := fresh "w" in
        let E := fresh "E" in
        destruct (imap2_same_shape2 op n m f g) as (r & E);
        rewrite E; clear E; cbn [Py.bind]
    | |- context [imap2 ?op (Arr1 ?n ?f) (Arr1 ?n ?g)] =>
        let r := fresh "v" in
        let E := fresh "E" in
        destruct (imap2_same_shape1 op n f g) as (r & E);
        rewrite E; clear E; cbn [Py.bind]
    end.
  destruct (TwoLayerNet.epoch_boundary it ipe).
  - match goal with
    | |- context [TwoLayerNet.predict
                    {| TwoLayerNet.W1 := Arr2 _ _ ?f1; TwoLayerNet.b1 := Arr1 _ ?f2;
                       TwoLayerNet.W2 := Arr2 _ _ ?f3; TwoLayerNet.b2 := Arr1 _ ?f4 |}
                    _] =>
        destruct (predict_returns (length idxs) D H C
                    (fun i j => x (nth i idxs O) j) f1 f2 f3 f4 HC)
          as (p & Epb & Hpl & _);
        destruct (predict_returns Nv D H C xv f1 f2 f3 f4 HC)
          as (pv & Epv & Hpvl & _);
        unfold net in Epb, Epv; rewrite Epb, Epv
    end.
    cbn [Py.bind].
    destruct (eq_labels_fraction p yb ltac:(congruence) ltac:(lia))
      as (hit & Ehit & Hhit).
    destruct (eq_labels_fraction pv y_val ltac:(congruence) ltac:(lia))
      as (hitv & Ehitv & Hhitv).
    rewrite Ehit, Ehitv. cbn [Py.bind].
    eexists. split; [reflexivity|].
    cbn [TwoLayerNet.self_params TwoLayerNet.history
         TwoLayerNet.train_acc_history TwoLayerNet.val_acc_history].
    split; [do 4 eexists; reflexivity|].
    split; apply Forall_app; (split; [assumption | now constructor]).
  - eexists. split; [reflexivity|].
    cbn [TwoLayerNet.self_params TwoLayerNet.history
         TwoLayerNet.train_acc_history TwoLayerNet.val_acc_history].
    split; [do 4 eexists; reflexivity|]. split; assumption.
Qed.

Lemma net_train_loop_fractions (its : list nat) :
  forall st : TwoLayerNet.train_state,
    has_shapes D H C (TwoLayerNet.self_params st) ->
    Forall is_fraction (TwoLayerNet.train_acc_history (TwoLayerNet.history st)) ->
    Forall is_fraction (TwoLayerNet.val_acc_history (TwoLayerNet.history st)) ->
    exists st',
      for_each its
        (TwoLayerNet.train_step (Arr2 N D x) y (Arr2 Nv D xv) y_val decay reg
           N batch_size ipe raw) st = Ok st' /\
      Forall is_fraction (TwoLayerNet.train_acc_history (TwoLayerNet.history st')) /\
      Forall is_fraction (TwoLayerNet.val_acc_history (TwoLayerNet.history st')).
Proof.
  induction its as [|it rest IH]; intros st Hst Ht Hv; cbn [for_each].
  - exists st. repeat split; assumption.
  - destruct (net_train_step_fractions it st Hst Ht Hv)
      as (st1 & E1 & Hs1 & Ht1 & Hv1).
    rewrite E1. cbn [Py.bind]. now apply IH.
Qed.

End TrainAccuracies.

(** X24: on non-empty training and validation sets of well-shaped data,
    with a positive batch size, every training accuracy and every
    validation accuracy [TwoLayerNet.train] records lies between 0 and
    1. *)
Theorem two_layer_accuracies_are_fractions
  (raw : nat -> nat -> nat) (N D H C Nv : nat)
  (x xv : nat -> nat -> R) (y y_val : list nat) (self : TwoLayerNet.params)
  (lr decay reg : R) (num_iters batch_size : nat) :
  N <> O -> length y = N -> Forall (fun l => (l < C)%nat) y ->
  length y_val = Nv -> Nv <> O -> has_shapes D H C self -> batch_size <> O ->
  exists self' hist,
    TwoLayerNet.train raw self (Arr2 N D x) y (Arr2 Nv D xv) y_val
      lr decay reg num_iters batch_size = Ok (self', hist)
    /\ Forall is_fraction (TwoLayerNet.train_acc_history hist)
    /\ Forall is_fraction (TwoLayerNet.val_acc_history hist).
Proof.
  intros HN Hy Hl Hyv HNv Hself HB. unfold TwoLayerNet.train, Py.truediv.
  cbn [shape_at shape nth_error Py.bind].
  replace (batch_size =? 0)%nat with false by (symmetry; now apply Nat.eqb_neq).
  cbn [Py.bind].
  match goal with
  | |- context [for_each ?its ?f ?st] =>
      destruct (net_train_loop_fractions N D H C Nv x xv y y_val decay reg
                  batch_size (Py.max (Py.float_quotient N batch_size) 1)
                  raw HN Hy Hl Hyv HB HNv its st Hself
                  (Forall_nil _) (Forall_nil _))
        as (st' & E & Ht & Hv)
  end.
  rewrite E. cbn [Py.bind]. do 2 eexists. split; [reflexivity|].
  split; assumption.
Qed.

Lemma two_layer_accuracies_are_fractions_witness :
  exists self' hist,
    TwoLayerNet.train X.raw0 (TwoLayerNet.init X.x2 X.w3 2 4 3 1)
      X.X3 X.y3 X.X2 X.y2 1 1 0 5 2 = Ok (self', hist)
    /\ Forall is_fraction (TwoLayerNet.train_acc_history hist)
    /\ Forall is_fraction (TwoLayerNet.val_acc_history hist).
Proof.
  apply (two_layer_accuracies_are_fractions X.raw0 3 2 4 3 2
           X.x2 X.x2 X.y3 X.y2 (TwoLayerNet.init X.x2 X.w3 2 4 3 1) 1 1 0 5 2).
  - lia.
  - reflexivity.
  - repeat constructor.
  - reflexivity.
  - lia.
  - apply init_has_shapes.
  - lia.
Defined.
